(** * The grid document generator of [src/App.tsx]

    [generateSVG] maps a [GridSettings] record to SVG markup.  JavaScript
    numbers are IEEE 754 binary64 values, so they are embedded as Rocq's
    primitive floats, whose operations are the same correctly rounded
    binary64 operations.  The two [for] loops of the source have no bound
    that can be read off the program text, so they are run with fuel:
    [None] means that the loop was still running when the fuel ran out.

    Strings have no maximum length here, while an engine has one and
    throws once [gridLines] outgrows it.  A result [Some] therefore stands
    for a run whose markup fits in a string; the only results shown to
    exist below are of grids of a few lines. *)

From Stdlib Require Import Floats ZArith List String Ascii Bool Arith Lia.
Import ListNotations.

#[local] Set Warnings "-inexact-float".
#[local] Open Scope list_scope.

(** ** The fragment of JavaScript the generator uses *)

Module Js.

(** A JavaScript number. *)
Definition number : Set := float.

(** [a >= b] on numbers; like IEEE's comparison it is false when either
    side is NaN, which is what [b <= a] gives. *)
Definition geb (a b : number) : bool := (b <=? a)%float.

(** A template literal evaluates to the concatenation of its literal
    chunks and of its interpolated values converted with [ToString].
    The value of a template is kept as that sequence, so that the numbers
    put into the markup can be read back without fixing a decimal
    printer. *)
Inductive piece : Set :=
| Lit (s : string)
| Num (n : number).

Definition template : Set := list piece.

(** The string a template stands for, given [Number::toString]. *)
Fixpoint render (toString : number -> string) (t : template) : string :=
  match t with
  | [] => EmptyString
  | Lit s :: t' => (s ++ render toString t')%string
  | Num n :: t' => (toString n ++ render toString t')%string
  end.

(** Template text is written here with ['] standing for the double quote
    and [|] for a line break; neither character occurs in the templates
    of the source.  [text] puts the real characters back. *)
Fixpoint text (s : string) : string :=
  match s with
  | EmptyString => EmptyString
  | String c s' =>
      String (if Ascii.eqb c "'"%char then "034"%char
              else if Ascii.eqb c "|"%char then "010"%char
              else c) (text s')
  end.

(** [for (let v = init; cond(v); v = next(v)) acc = body(v, acc)]. *)
Fixpoint forLoop {A : Type} (fuel : nat) (cond : number -> bool)
    (next : number -> number) (body : number -> A -> A)
    (v : number) (acc : A) : option A :=
  match fuel with
  | O => None
  | S fuel' =>
      if cond v then forLoop fuel' cond next body (next v) (body v acc)
      else Some acc
  end.

End Js.

Import Js.

Infix ">=?" := Js.geb (at level 70, no associativity) : float_scope.

#[local] Open Scope float_scope.

(** ** Settings *)

(** ['mm' | 'cm' | 'in']; [in] is a keyword here, hence [inch]. *)
Inductive PageUnit : Set := mm | cm | inch.

Inductive GridType : Set := lines | dots.

Record GridSettings : Set := {
  pageWidth : number;
  pageHeight : number;
  pageUnit : PageUnit;
  gridType : GridType;
  gridSpacingX : number;
  gridSpacingY : number;
  lineWidth : number;
  dotSize : number;
  rectangleWidth : number;
  rectangleHeight : number;
  rectangleBorderWidth : number
}.

(** ** The locals of [generateSVG], each as a function of the settings *)

Definition pageWidthMm (s : GridSettings) : number :=
  match pageUnit s with
  | cm => pageWidth s * 10
  | inch => pageWidth s * 25.4
  | mm => pageWidth s
  end.

Definition pageHeightMm (s : GridSettings) : number :=
  match pageUnit s with
  | cm => pageHeight s * 10
  | inch => pageHeight s * 25.4
  | mm => pageHeight s
  end.

Definition rectangleX (s : GridSettings) : number :=
  (pageWidthMm s - rectangleWidth s) / 2.

Definition rectangleY (s : GridSettings) : number :=
  (pageHeightMm s - rectangleHeight s) / 2.

Definition mmToPixel : number := 3.779527559.

Definition svgWidth (s : GridSettings) : number := pageWidthMm s * mmToPixel.
Definition svgHeight (s : GridSettings) : number := pageHeightMm s * mmToPixel.
Definition rectW (s : GridSettings) : number := rectangleWidth s * mmToPixel.
Definition rectH (s : GridSettings) : number := rectangleHeight s * mmToPixel.
Definition rectX (s : GridSettings) : number := rectangleX s * mmToPixel.
Definition rectY (s : GridSettings) : number := rectangleY s * mmToPixel.

Definition spacingX (s : GridSettings) : number := gridSpacingX s * mmToPixel.
Definition spacingY (s : GridSettings) : number := gridSpacingY s * mmToPixel.

Definition gridStartX (s : GridSettings) : number := rectX s.
Definition gridEndX (s : GridSettings) : number := rectX s + rectW s.
Definition gridStartY (s : GridSettings) : number := rectY s.
Definition gridEndY (s : GridSettings) : number := rectY s + rectH s.

Definition alignedStartX (s : GridSettings) : number := rectX s.
Definition alignedStartY (s : GridSettings) : number := rectY s.

(** ** Grid lines *)

(** The template of one [<line>] element, as both loops write it. *)
Definition lineMarkup (x1 y1 x2 y2 strokeWidth : number) : template :=
  [ Lit (text "<line x1='"); Num x1;
    Lit (text "' y1='"); Num y1;
    Lit (text "' x2='"); Num x2;
    Lit (text "' y2='"); Num y2;
    Lit (text "' stroke='#666' stroke-width='"); Num strokeWidth;
    Lit (text "' />|") ].

(** Body of the first loop: [gridLines += ...] under its guard. *)
Definition verticalBody (s : GridSettings) (x : number) (gridLines : template)
  : template :=
  if (x >=? rectX s) && (x <=? rectX s + rectW s)
  then gridLines ++
       lineMarkup x (gridStartY s) x (gridEndY s) (lineWidth s * mmToPixel)
  else gridLines.

(** Body of the second loop. *)
Definition horizontalBody (s : GridSettings) (y : number) (gridLines : template)
  : template :=
  if (y >=? rectY s) && (y <=? rectY s + rectH s)
  then gridLines ++
       lineMarkup (gridStartX s) y (gridEndX s) y (lineWidth s * mmToPixel)
  else gridLines.

(** [for (let x = alignedStartX; x <= gridEndX; x += spacingX)]. *)
Definition verticalLines (fuel : nat) (s : GridSettings) (gridLines : template)
  : option template :=
  forLoop fuel (fun x => x <=? gridEndX s) (fun x => x + spacingX s)
    (verticalBody s) (alignedStartX s) gridLines.

(** [for (let y = alignedStartY; y <= gridEndY; y += spacingY)]. *)
Definition horizontalLines (fuel : nat) (s : GridSettings) (gridLines : template)
  : option template :=
  forLoop fuel (fun y => y <=? gridEndY s) (fun y => y + spacingY s)
    (horizontalBody s) (alignedStartY s) gridLines.

(** The value of [gridLines] when the second loop is left. *)
Definition gridLinesOf (fuel : nat) (s : GridSettings) : option template :=
  match verticalLines fuel s [] with
  | None => None
  | Some gridLines => horizontalLines fuel s gridLines
  end.

(** ** The returned markup *)

Definition markup (s : GridSettings) (gridLines : template) : template :=
  [ Lit (text "<?xml version='1.0' encoding='UTF-8'?>|<svg width='");
    Num (pageWidthMm s);
    Lit (text "mm' height='");
    Num (pageHeightMm s);
    Lit (text "mm' viewBox='0 0 ");
    Num (svgWidth s);
    Lit (text " ");
    Num (svgHeight s);
    Lit (text "' xmlns='http://www.w3.org/2000/svg'>|  <defs>|    <style>|      .page-boundary { fill: none; stroke: #000; stroke-width: 1; }|      .rectangle { fill: none; stroke: #000; stroke-width: ");
    Num (rectangleBorderWidth s * mmToPixel);
    Lit (text "; }|      .grid-line { stroke: #666; stroke-width: ");
    Num (lineWidth s * mmToPixel);
    Lit (text "; }|    </style>|  </defs>|  |  <!-- Page boundary -->|  <rect class='page-boundary' x='0' y='0' width='");
    Num (svgWidth s);
    Lit (text "' height='");
    Num (svgHeight s);
    Lit (text "' />|  |  <!-- Grid lines -->|  ") ]
  ++ gridLines ++
  [ Lit (text "|  |  <!-- Rectangle -->|  <rect class='rectangle' x='");
    Num (rectX s);
    Lit (text "' y='");
    Num (rectY s);
    Lit (text "' width='");
    Num (rectW s);
    Lit (text "' height='");
    Num (rectH s);
    Lit (text "' />|</svg>") ].

Definition generateSVG (fuel : nat) (s : GridSettings) : option template :=
  match gridLinesOf fuel s with
  | None => None
  | Some gridLines => Some (markup s gridLines)
  end.

(** The string returned, for a given [Number::toString]. *)
Definition generateSVGString (toString : number -> string) (fuel : nat)
    (s : GridSettings) : option string :=
  option_map (render toString) (generateSVG fuel s).

(** The initial state of the form: an A4 page in millimetres. *)
Definition defaultSettings : GridSettings := {|
  pageWidth := 210;
  pageHeight := 297;
  pageUnit := mm;
  gridType := lines;
  gridSpacingX := 10;
  gridSpacingY := 10;
  lineWidth := 0.2;
  dotSize := 1;
  rectangleWidth := 100;
  rectangleHeight := 80;
  rectangleBorderWidth := 0.4
|}.


(** ** Reading the markup back *)

(** One [<line>] element: its four coordinates and its stroke width. *)
Record Line : Set := {
  x1 : number;
  y1 : number;
  x2 : number;
  y2 : number;
  strokeWidth : number
}.

Definition lineElement (l : Line) : template :=
  lineMarkup (x1 l) (y1 l) (x2 l) (y2 l) (strokeWidth l).

Definition lineElements (ls : list Line) : template :=
  flat_map lineElement ls.

(** Parses a sequence of [<line>] elements; [None] on anything else. *)
Fixpoint parseLines (t : template) : option (list Line) :=
  match t with
  | [] => Some []
  | Lit a :: Num vx1 :: Lit b :: Num vy1 :: Lit c :: Num vx2 :: Lit d ::
    Num vy2 :: Lit e :: Num w :: Lit f :: t' =>
      if (a =? text "<line x1='")%string && (b =? text "' y1='")%string &&
         (c =? text "' x2='")%string && (d =? text "' y2='")%string &&
         (e =? text "' stroke='#666' stroke-width='")%string &&
         (f =? text "' />|")%string
      then option_map
             (cons {| x1 := vx1; y1 := vy1; x2 := vx2; y2 := vy2;
                      strokeWidth := w |})
             (parseLines t')
      else None
  | _ => None
  end.

(** [lo <= v <= hi], with the comparisons of the source. *)
Definition within (lo hi v : number) : bool := (v >=? lo) && (v <=? hi).

(** How many times [p] occurs in [s]. *)
Fixpoint occurrences (p s : string) : nat :=
  match s with
  | EmptyString => O
  | String _ s' => ((if prefix p s then 1 else 0) + occurrences p s')%nat
  end.

(** Number of elements [<tag ...] opened in the literal text of a
    template. *)
Fixpoint elementCount (tag : string) (t : template) : nat :=
  match t with
  | [] => O
  | Lit s :: t' => (occurrences ("<" ++ tag ++ " ") s + elementCount tag t')%nat
  | Num _ :: t' => elementCount tag t'
  end.

(** The [<rect class="rectangle">] element when it closes the markup:
    its [x], [y], [width] and [height]. *)
Definition endsWith (suffix s : string) : bool :=
  (substring (length s - length suffix) (length suffix) s =? suffix)%string.

Definition rectangleElement (t : template)
  : option (number * number * number * number) :=
  match rev t with
  | Lit z :: Num h :: Lit c :: Num w :: Lit b :: Num y :: Lit a :: Num x ::
    Lit o :: _ =>
      if endsWith (text "<rect class='rectangle' x='") o &&
         (a =? text "' y='")%string && (b =? text "' width='")%string &&
         (c =? text "' height='")%string && (z =? text "' />|</svg>")%string
      then Some (x, y, w, h)
      else None
  | _ => None
  end.

(** ** What the markup is checked against *)

(** A vertical grid line: one abscissa, inside the rectangle's extent, drawn
    from the rectangle's top edge to its bottom edge. *)
Definition verticalLineOf (s : GridSettings) (l : Line) : Prop :=
  x1 l = x2 l /\
  within (rectX s) (rectX s + rectW s) (x1 l) = true /\
  y1 l = rectY s /\ y2 l = rectY s + rectH s.

(** A horizontal grid line, symmetrically. *)
Definition horizontalLineOf (s : GridSettings) (l : Line) : Prop :=
  y1 l = y2 l /\
  within (rectY s) (rectY s + rectH s) (y1 l) = true /\
  x1 l = rectX s /\ x2 l = rectX s + rectW s.

Definition gridLineOf (s : GridSettings) (l : Line) : Prop :=
  (verticalLineOf s l \/ horizontalLineOf s l) /\
  strokeWidth l = lineWidth s * mmToPixel.

(** What both loops keep true of [gridLines]: it is a sequence of line
    elements, each a grid line of the rectangle. *)
Definition gridInvariant (s : GridSettings) (gl : template) : Prop :=
  exists ls, gl = lineElements ls /\ Forall (gridLineOf s) ls.

(** All four coordinates of a line lie in the rectangle, edges included. *)
Definition insideRectangle (s : GridSettings) (l : Line) : bool :=
  within (rectX s) (rectX s + rectW s) (x1 l) &&
  within (rectX s) (rectX s + rectW s) (x2 l) &&
  within (rectY s) (rectY s + rectH s) (y1 l) &&
  within (rectY s) (rectY s + rectH s) (y2 l).

(** The rectangle's device-space extent is a genuine interval on both axes:
    neither bound is NaN and the far edge is not before the origin. *)
Definition properRectangle (s : GridSettings) : bool :=
  (rectX s <=? rectX s + rectW s) && (rectY s <=? rectY s + rectH s).

Definition isVertical (l : Line) : bool := x1 l =? x2 l.
Definition isHorizontal (l : Line) : bool := y1 l =? y2 l.

(** The factor that takes a length in a page unit to millimetres. *)
Definition unitFactor (u : PageUnit) : number :=
  match u with
  | mm => 1
  | cm => 10
  | inch => 25.4
  end.

(** The width given in the [viewBox] attribute: the sixth piece of the
    markup. *)
Definition viewBoxWidth (t : template) : option number :=
  match nth_error t 5 with
  | Some (Num w) => Some w
  | _ => None
  end.

(** The three drawn parts of the document, each as its own element. *)
Definition pageBoundaryElement (s : GridSettings) : template :=
  [ Lit (text "<rect class='page-boundary' x='0' y='0' width='");
    Num (svgWidth s);
    Lit (text "' height='");
    Num (svgHeight s);
    Lit (text "' />") ].

Definition rectangleOutline (s : GridSettings) : template :=
  [ Lit (text "<rect class='rectangle' x='");
    Num (rectX s);
    Lit (text "' y='");
    Num (rectY s);
    Lit (text "' width='");
    Num (rectW s);
    Lit (text "' height='");
    Num (rectH s);
    Lit (text "' />") ].

(** The three rules of the style block. *)
Definition styleRules (s : GridSettings) : template :=
  [ Lit (text ".page-boundary { fill: none; stroke: #000; stroke-width: 1; }|");
    Lit (text "      .rectangle { fill: none; stroke: #000; stroke-width: ");
    Num (rectangleBorderWidth s * mmToPixel);
    Lit (text "; }|");
    Lit (text "      .grid-line { stroke: #666; stroke-width: ");
    Num (lineWidth s * mmToPixel);
    Lit (text "; }|") ].

(** Everything before the first drawn element. *)
Definition documentHead (s : GridSettings) : template :=
  [ Lit (text "<?xml version='1.0' encoding='UTF-8'?>|");
    Lit (text "<svg width='"); Num (pageWidthMm s);
    Lit (text "mm' height='"); Num (pageHeightMm s);
    Lit (text "mm' viewBox='0 0 "); Num (svgWidth s);
    Lit (text " "); Num (svgHeight s);
    Lit (text "' xmlns='http://www.w3.org/2000/svg'>|");
    Lit (text "  <defs>|    <style>|      ") ]
  ++ styleRules s ++
  [ Lit (text "    </style>|  </defs>|  |  <!-- Page boundary -->|  ") ].

(** The document as a sequence: head, page boundary, grid, rectangle. *)
Definition orderedMarkup (s : GridSettings) (gridLines : template) : template :=
  (documentHead s ++ pageBoundaryElement s ++
   [ Lit (text "|  |  <!-- Grid lines -->|  ") ])
  ++ gridLines ++
  ([ Lit (text "|  |  <!-- Rectangle -->|  ") ] ++ rectangleOutline s ++
   [ Lit (text "|</svg>") ]).

(** The value of an unsigned decimal integer written in CSS text. *)
Definition digitValue (c : ascii) : option number :=
  nth_error [0; 1; 2; 3; 4; 5; 6; 7; 8; 9] (nat_of_ascii c - 48).

Fixpoint digitsValue (s : string) (acc : number) : option number :=
  match s with
  | EmptyString => Some acc
  | String c s' =>
      if (48 <=? nat_of_ascii c)%nat then
        match digitValue c with
        | Some d => digitsValue s' (acc * 10 + d)
        | None => None
        end
      else None
  end.

Definition cssInteger (s : string) : option number :=
  match s with
  | EmptyString => None
  | _ => digitsValue s 0
  end.

(** The [stroke-width] declared by the rule of class [cls]: found in the
    literal text of the rule, it is either written there up to the [;], or
    it is the number interpolated right after the text. *)
Fixpoint declaredStrokeWidth (cls : string) (t : template) : option piece :=
  match t with
  | [] => None
  | Num _ :: t' => declaredStrokeWidth cls t'
  | Lit s :: t' =>
      match index 0 ("." ++ cls ++ " {") s with
      | None => declaredStrokeWidth cls t'
      | Some i =>
          let rule := substring i (length s - i) s in
          match index 0 "stroke-width: " rule with
          | None => None
          | Some j =>
              let value := substring (j + 14) (length rule - (j + 14)) rule in
              match index 0 ";" value, value, t' with
              | Some k, _, _ => Some (Lit (substring 0 k value))
              | None, EmptyString, Num n :: _ => Some (Num n)
              | _, _, _ => None
              end
          end
      end
  end.

(** A declared stroke width as a number. *)
Definition strokeWidthValue (p : piece) : option number :=
  match p with
  | Num n => Some n
  | Lit s => cssInteger s
  end.

Definition numericSettings (s : GridSettings) : list number :=
  [ pageWidth s; pageHeight s; gridSpacingX s; gridSpacingY s; lineWidth s;
    dotSize s; rectangleWidth s; rectangleHeight s; rectangleBorderWidth s ].

(** [w] is some numeric setting converted to device space. *)
Definition isScaledSetting (s : GridSettings) (w : number) : bool :=
  existsb (fun v => v * mmToPixel =? w) (numericSettings s).

Definition strokeClasses : list string :=
  [ "page-boundary"; "rectangle"; "grid-line" ]%string.

(** Every one of the three declared stroke widths is a setting converted to
    device space. *)
Definition strokeWidthsAllScaled (s : GridSettings) (t : template) : bool :=
  forallb
    (fun cls =>
       match declaredStrokeWidth cls t with
       | Some p =>
           match strokeWidthValue p with
           | Some w => isScaledSetting s w
           | None => false
           end
       | None => false
       end)
    strokeClasses.

(** ** Settings used below *)

(** The default page with the X spacing field emptied, which the form turns
    into [0] ([parseFloat(...) || 0]). *)
Definition zeroSpacingSettings : GridSettings := {|
  pageWidth := 210;
  pageHeight := 297;
  pageUnit := mm;
  gridType := lines;
  gridSpacingX := 0;
  gridSpacingY := 10;
  lineWidth := 0.2;
  dotSize := 1;
  rectangleWidth := 100;
  rectangleHeight := 80;
  rectangleBorderWidth := 0.4
|}.

(** [updateSetting('gridSpacingX', v)]. *)
Definition withGridSpacingX (v : number) (s : GridSettings) : GridSettings := {|
  pageWidth := pageWidth s;
  pageHeight := pageHeight s;
  pageUnit := pageUnit s;
  gridType := gridType s;
  gridSpacingX := v;
  gridSpacingY := gridSpacingY s;
  lineWidth := lineWidth s;
  dotSize := dotSize s;
  rectangleWidth := rectangleWidth s;
  rectangleHeight := rectangleHeight s;
  rectangleBorderWidth := rectangleBorderWidth s
|}.

(** The default page with "Dots" chosen in the form. *)
Definition dotsSettings : GridSettings := {|
  pageWidth := 210;
  pageHeight := 297;
  pageUnit := mm;
  gridType := dots;
  gridSpacingX := 10;
  gridSpacingY := 10;
  lineWidth := 0.2;
  dotSize := 1.5;
  rectangleWidth := 100;
  rectangleHeight := 80;
  rectangleBorderWidth := 0.4
|}.

(** The same page given in centimetres. *)
Definition centimetreSettings : GridSettings := {|
  pageWidth := 21;
  pageHeight := 29.7;
  pageUnit := cm;
  gridType := lines;
  gridSpacingX := 10;
  gridSpacingY := 10;
  lineWidth := 0.2;
  dotSize := 1;
  rectangleWidth := 100;
  rectangleHeight := 80;
  rectangleBorderWidth := 0.4
|}.

(** A rectangle wider and taller than the page. *)
Definition oversizedSettings : GridSettings := {|
  pageWidth := 210;
  pageHeight := 297;
  pageUnit := mm;
  gridType := lines;
  gridSpacingX := 50;
  gridSpacingY := 50;
  lineWidth := 0.2;
  dotSize := 1;
  rectangleWidth := 300;
  rectangleHeight := 400;
  rectangleBorderWidth := 0.4
|}.

(** The grid lines of the default page. *)
Definition defaultGridLines : template :=
  Eval vm_compute in
    match gridLinesOf 20 defaultSettings with
    | Some gridLines => gridLines
    | None => []
    end.

(** A stand-in for [Number::toString] where a concrete one is needed. *)
Definition placeholder (n : number) : string := "#"%string.

(** ** The component around the generator

    The state of [App] is the object held by [useState]; its handlers
    replace it by copies with one property changed.  The object is kept
    as a map from property names to values, a property that was never
    written being [None] ([undefined]). *)

Module Key.

(** [keyof GridSettings]. *)
Inductive t : Set :=
| pageWidth
| pageHeight
| pageUnit
| gridType
| gridSpacingX
| gridSpacingY
| lineWidth
| dotSize
| rectangleWidth
| rectangleHeight
| rectangleBorderWidth.

Definition eq_dec (a b : t) : {a = b} + {a <> b}.
Proof. decide equality. Defined.

End Key.

(** The values the handlers store: numbers, and the strings of the two
    [<select>] elements. *)
Inductive Value : Set :=
| VNumber (n : number)
| VString (s : string).

Definition SettingsObject : Set := Key.t -> option Value.

(** The argument of [useState]: it has neither [gridType] nor
    [dotSize]. *)
Definition initialSettings : SettingsObject :=
  fun k =>
    match k with
    | Key.pageWidth => Some (VNumber 210)
    | Key.pageHeight => Some (VNumber 297)
    | Key.pageUnit => Some (VString "mm")
    | Key.gridSpacingX => Some (VNumber 10)
    | Key.gridSpacingY => Some (VNumber 10)
    | Key.lineWidth => Some (VNumber 0.2)
    | Key.rectangleWidth => Some (VNumber 100)
    | Key.rectangleHeight => Some (VNumber 80)
    | Key.rectangleBorderWidth => Some (VNumber 0.4)
    | Key.gridType | Key.dotSize => None
    end.

(** [prev => ({ ...prev, [key]: value })], the updater [updateSetting]
    hands to [setSettings]. *)
Definition updateSetting (key : Key.t) (value : Value) (prev : SettingsObject)
  : SettingsObject :=
  fun k => if Key.eq_dec k key then Some value else prev k.

(** [prev => ({ ...prev, gridType: value })], the updater of the grid-type
    [<select>]. *)
Definition setGridType (value : string) (prev : SettingsObject)
  : SettingsObject :=
  fun k => if Key.eq_dec k Key.gridType then Some (VString value) else prev k.

(** [ToBoolean] of a number: false for [+0], [-0] and NaN. *)
Definition truthy (n : number) : bool := negb (n =? 0) && (n =? n).

(** [n || 0]. *)
Definition orZero (n : number) : number := if truthy n then n else 0.

(** [v === lit] for a string literal [lit]. *)
Definition isString (v : option Value) (lit : string) : bool :=
  match v with
  | Some (VString s) => (s =? lit)%string
  | _ => false
  end.

(** The [value] of the options of the two [<select>] elements. *)
Definition unitValue (u : PageUnit) : string :=
  match u with
  | mm => "mm"
  | cm => "cm"
  | inch => "in"
  end.

Definition gridTypeValue (g : GridType) : string :=
  match g with
  | lines => "lines"
  | dots => "dots"
  end.

(** What the user does to the form.  For a number input, [parsed] is what
    [parseFloat(e.target.value)] gave; for a [<select>], the option
    chosen. *)
Inductive Event : Set :=
| NumberInput (key : Key.t) (parsed : number)
| UnitSelect (u : PageUnit)
| GridTypeSelect (g : GridType).

(** Whether the rendered form has a number input for [key]: the line
    width and the dot size are under [settings.gridType === 'lines' &&]
    and [settings.gridType === 'dots' &&]; the unit and the grid type are
    [<select>]s. *)
Definition hasNumberInput (settings : SettingsObject) (key : Key.t) : bool :=
  match key with
  | Key.pageUnit | Key.gridType => false
  | Key.lineWidth => isString (settings Key.gridType) "lines"
  | Key.dotSize => isString (settings Key.gridType) "dots"
  | _ => true
  end.

(** The [onChange] handlers: the next state, or [None] when the form has
    no such control to act on. *)
Definition handle (settings : SettingsObject) (e : Event)
  : option SettingsObject :=
  match e with
  | NumberInput key parsed =>
      if hasNumberInput settings key
      then Some (updateSetting key (VNumber (orZero parsed)) settings)
      else None
  | UnitSelect u =>
      Some (updateSetting Key.pageUnit (VString (unitValue u)) settings)
  | GridTypeSelect g => Some (setGridType (gridTypeValue g) settings)
  end.

Fixpoint run (settings : SettingsObject) (events : list Event)
  : option SettingsObject :=
  match events with
  | [] => Some settings
  | e :: events' =>
      match handle settings e with
      | Some settings' => run settings' events'
      | None => None
      end
  end.

(** The property an event writes. *)
Definition target (e : Event) : Key.t :=
  match e with
  | NumberInput key _ => key
  | UnitSelect _ => Key.pageUnit
  | GridTypeSelect _ => Key.gridType
  end.

(** The summary under the preview starts with
    [settings.gridType === 'lines' ? 'Grid Lines' : 'Dots']. *)
Definition summaryKind (settings : SettingsObject) : string :=
  if isString (settings Key.gridType) "lines" then "Grid Lines" else "Dots".

Definition asNumber (v : option Value) : option number :=
  match v with
  | Some (VNumber n) => Some n
  | _ => None
  end.

(** The unit as the two tests of [generateSVG] see it: ['cm'], ['in'], and
    millimetres for anything else. *)
Definition unitOf (v : option Value) : PageUnit :=
  if isString v "cm" then cm
  else if isString v "in" then inch
  else mm.

(** [const { pageWidth, ..., rectangleBorderWidth } = settings] at the top
    of [generateSVG], for a state whose eight numeric properties are
    numbers.  [gridType] and [dotSize] are not among the names
    destructured; the record has to hold something in their place. *)
Definition destructured (settings : SettingsObject) : option GridSettings :=
  match asNumber (settings Key.pageWidth), asNumber (settings Key.pageHeight),
        asNumber (settings Key.gridSpacingX),
        asNumber (settings Key.gridSpacingY),
        asNumber (settings Key.lineWidth),
        asNumber (settings Key.rectangleWidth),
        asNumber (settings Key.rectangleHeight),
        asNumber (settings Key.rectangleBorderWidth) with
  | Some pw, Some ph, Some sx, Some sy, Some lw, Some rw, Some rh, Some bw =>
      Some {| pageWidth := pw;
              pageHeight := ph;
              pageUnit := unitOf (settings Key.pageUnit);
              gridType :=
                if isString (settings Key.gridType) "dots" then dots
                else lines;
              gridSpacingX := sx;
              gridSpacingY := sy;
              lineWidth := lw;
              dotSize :=
                match asNumber (settings Key.dotSize) with
                | Some d => d
                | None => 0
                end;
              rectangleWidth := rw;
              rectangleHeight := rh;
              rectangleBorderWidth := bw |}
  | _, _, _, _, _, _, _, _ => None
  end.

(** A property holds a number that is not NaN. *)
Definition holdsNumber (v : option Value) : bool :=
  match v with
  | Some (VNumber n) => n =? n
  | _ => false
  end.

Definition undefinedOr (p : option Value -> bool) (v : option Value) : bool :=
  match v with
  | None => true
  | Some _ => p v
  end.

(** What every state of the form satisfies. *)
Definition wellFormed (settings : SettingsObject) : bool :=
  holdsNumber (settings Key.pageWidth) &&
  holdsNumber (settings Key.pageHeight) &&
  holdsNumber (settings Key.gridSpacingX) &&
  holdsNumber (settings Key.gridSpacingY) &&
  holdsNumber (settings Key.lineWidth) &&
  holdsNumber (settings Key.rectangleWidth) &&
  holdsNumber (settings Key.rectangleHeight) &&
  holdsNumber (settings Key.rectangleBorderWidth) &&
  (isString (settings Key.pageUnit) "mm" ||
   isString (settings Key.pageUnit) "cm" ||
   isString (settings Key.pageUnit) "in") &&
  undefinedOr
    (fun v => isString v "lines" || isString v "dots")
    (settings Key.gridType) &&
  undefinedOr holdsNumber (settings Key.dotSize).

(** ** The grid as a list of positions *)

(** [n] successive values of the loop variable: [v], [next v], ... *)
Fixpoint iterates (next : number -> number) (n : nat) (v : number)
  : list number :=
  match n with
  | O => []
  | S n' => v :: iterates next n' (next v)
  end.

(** The line each loop writes at a position. *)
Definition verticalAt (s : GridSettings) (x : number) : Line :=
  {| x1 := x; y1 := gridStartY s; x2 := x; y2 := gridEndY s;
     strokeWidth := lineWidth s * mmToPixel |}.

Definition horizontalAt (s : GridSettings) (y : number) : Line :=
  {| x1 := gridStartX s; y1 := y; x2 := gridEndX s; y2 := y;
     strokeWidth := lineWidth s * mmToPixel |}.

(** What an iteration adds: its line under the guard, else nothing. *)
Definition verticalDrawn (s : GridSettings) (x : number) : list Line :=
  if (x >=? rectX s) && (x <=? rectX s + rectW s) then [verticalAt s x]
  else [].

Definition horizontalDrawn (s : GridSettings) (y : number) : list Line :=
  if (y >=? rectY s) && (y <=? rectY s + rectH s) then [horizontalAt s y]
  else [].

(** The loop variables after [n] turns. *)
Definition abscissa (s : GridSettings) (n : nat) : number :=
  Nat.iter n (fun x => x + spacingX s) (alignedStartX s).

Definition ordinate (s : GridSettings) (n : nat) : number :=
  Nat.iter n (fun y => y + spacingY s) (alignedStartY s).

(** The positions the loops go through in their first [n] turns. *)
Definition abscissas (s : GridSettings) (n : nat) : list number :=
  iterates (fun x => x + spacingX s) n (alignedStartX s).

Definition ordinates (s : GridSettings) (n : nat) : list number :=
  iterates (fun y => y + spacingY s) n (alignedStartY s).

(** The value an event stores in its property. *)
Definition stored (e : Event) : Value :=
  match e with
  | NumberInput _ parsed => VNumber (orZero parsed)
  | UnitSelect u => VString (unitValue u)
  | GridTypeSelect g => VString (gridTypeValue g)
  end.

(** Settings whose two spacings are NaN. *)
Definition nanSpacingSettings : GridSettings := {|
  pageWidth := 210;
  pageHeight := 297;
  pageUnit := mm;
  gridType := lines;
  gridSpacingX := nan;
  gridSpacingY := nan;
  lineWidth := 0.2;
  dotSize := 1;
  rectangleWidth := 100;
  rectangleHeight := 80;
  rectangleBorderWidth := 0.4
|}.

(** ** The part of the browser [downloadSVG] acts on

    The children of [document.body] and the object URLs are known by
    identifiers handed out from one counter; [requested] lists the
    downloads that clicks on anchors have asked for. *)

Module Browser.

(** [new Blob([content], { type: mimeType })]. *)
Record Blob : Set := {
  content : string;
  mimeType : string
}.

(** An [<a>] element with the two attributes [downloadSVG] sets. *)
Record Anchor : Set := {
  node : nat;
  href : option nat;
  download : option string
}.

Record World : Set := {
  bodyChildren : list nat;
  objectURLs : list (nat * Blob);
  unused : nat;
  requested : list (string * Blob)
}.

(** [URL.createObjectURL(blob)]: a new URL that stands for the blob. *)
Definition createObjectURL (blob : Blob) (w : World) : nat * World :=
  (unused w,
   {| bodyChildren := bodyChildren w;
      objectURLs := (unused w, blob) :: objectURLs w;
      unused := S (unused w);
      requested := requested w |}).

(** [document.createElement('a')]: a new element, not in the document. *)
Definition createElement (w : World) : Anchor * World :=
  ({| node := unused w; href := None; download := None |},
   {| bodyChildren := bodyChildren w;
      objectURLs := objectURLs w;
      unused := S (unused w);
      requested := requested w |}).

(** [document.body.appendChild(a)]. *)
Definition appendChild (a : Anchor) (w : World) : World :=
  {| bodyChildren := bodyChildren w ++ [node a];
     objectURLs := objectURLs w;
     unused := unused w;
     requested := requested w |}.

Definition resolve (url : nat) (w : World) : option Blob :=
  option_map snd (find (fun entry => Nat.eqb (fst entry) url) (objectURLs w)).

(** [a.click()]: an anchor with a [download] attribute whose [href] is a
    live object URL asks for the download of the blob under the
    attribute's name; any other anchor is of no concern here. *)
Definition click (a : Anchor) (w : World) : World :=
  match href a, download a with
  | Some url, Some name =>
      match resolve url w with
      | Some blob =>
          {| bodyChildren := bodyChildren w;
             objectURLs := objectURLs w;
             unused := unused w;
             requested := requested w ++ [(name, blob)] |}
      | None => w
      end
  | _, _ => w
  end.

(** [document.body.removeChild(a)]. *)
Definition removeChild (a : Anchor) (w : World) : World :=
  {| bodyChildren :=
       filter (fun child => negb (Nat.eqb child (node a))) (bodyChildren w);
     objectURLs := objectURLs w;
     unused := unused w;
     requested := requested w |}.

(** [URL.revokeObjectURL(url)]. *)
Definition revokeObjectURL (url : nat) (w : World) : World :=
  {| bodyChildren := bodyChildren w;
     objectURLs :=
       filter (fun entry => negb (Nat.eqb (fst entry) url)) (objectURLs w);
     unused := unused w;
     requested := requested w |}.

(** Every identifier in use was handed out by the counter. *)
Definition tidy (w : World) : bool :=
  forallb (fun child => Nat.ltb child (unused w)) (bodyChildren w) &&
  forallb (fun entry => Nat.ltb (fst entry) (unused w)) (objectURLs w).

(** A page with two children, one object URL and no download yet. *)
Definition example : World :=
  {| bodyChildren := [0; 2]%nat;
     objectURLs := [(1%nat, {| content := "x"; mimeType := "text/plain" |})];
     unused := 3%nat;
     requested := [] |}.

End Browser.

(** [downloadSVG]; it returns nothing when [generateSVG] does not. *)
Definition downloadSVG (toString : number -> string) (fuel : nat)
    (s : GridSettings) (w : Browser.World) : option Browser.World :=
  match generateSVGString toString fuel s with
  | None => None
  | Some svgContent =>
      let blob :=
        {| Browser.content := svgContent;
           Browser.mimeType := "image/svg+xml" |} in
      let (url, w) := Browser.createObjectURL blob w in
      let (a, w) := Browser.createElement w in
      let a :=
        {| Browser.node := Browser.node a;
           Browser.href := Some url;
           Browser.download := Browser.download a |} in
      let a :=
        {| Browser.node := Browser.node a;
           Browser.href := Browser.href a;
           Browser.download := Some "grid-pattern.svg"%string |} in
      let w := Browser.appendChild a w in
      let w := Browser.click a w in
      let w := Browser.removeChild a w in
      Some (Browser.revokeObjectURL url w)
  end.

(** A rectangle of negative width on the default page, as the form
    accepts it; both spacings are 10. *)
Definition negativeWidthSettings : GridSettings := {|
  pageWidth := 210;
  pageHeight := 297;
  pageUnit := mm;
  gridType := lines;
  gridSpacingX := 10;
  gridSpacingY := 10;
  lineWidth := 0.2;
  dotSize := 1;
  rectangleWidth := -10;
  rectangleHeight := 80;
  rectangleBorderWidth := 0.4
|}.

(** * Properties *)

(** ** Facts about binary64 comparison *)

Section Comparison.

Lemma SFleb_refl (a b : spec_float) :
  SFleb a b = true -> SFleb a a = true.
Proof.
  unfold SFleb.
  destruct a as [sa | sa | | sa ma ea]; simpl;
    try destruct sa; try reflexivity;
    try (destruct b; discriminate);
    intros _; rewrite Z.compare_refl, Pos.compare_cont_refl; reflexivity.
Qed.

Lemma SFleb_refl_r (a b : spec_float) :
  SFleb a b = true -> SFleb b b = true.
Proof.
  unfold SFleb.
  destruct b as [sb | sb | | sb mb eb]; simpl;
    try destruct sb; try reflexivity;
    try (destruct a as [ | [] | | [] ]; discriminate);
    intros _; rewrite Z.compare_refl, Pos.compare_cont_refl; reflexivity.
Qed.

Lemma leb_refl_l (a b : number) : (a <=? b) = true -> (a <=? a) = true.
Proof. rewrite !leb_spec. apply SFleb_refl. Qed.

Lemma leb_refl_r (a b : number) : (a <=? b) = true -> (b <=? b) = true.
Proof. rewrite !leb_spec. apply SFleb_refl_r. Qed.

Lemma within_lower (lo hi : number) :
  (lo <=? hi) = true -> within lo hi lo = true.
Proof.
  intros H. unfold within, geb. now rewrite (leb_refl_l _ _ H), H.
Qed.

Lemma within_upper (lo hi : number) :
  (lo <=? hi) = true -> within lo hi hi = true.
Proof.
  intros H. unfold within, geb. now rewrite (leb_refl_r _ _ H), H.
Qed.

End Comparison.

(** ** Facts about binary64 arithmetic *)

Section Arithmetic.

Lemma one_repr : Prim2SF 1 = S754_finite false 4503599627370496 (-52).
Proof. reflexivity. Qed.

Lemma zero_repr : Prim2SF 0 = S754_zero false.
Proof. reflexivity. Qed.

Lemma canonical_fexp (m : positive) (e : Z) :
  canonical_mantissa prec emax m e = true ->
  fexp prec emax (Zpos (digits2_pos m) + e) = e.
Proof. unfold canonical_mantissa. intros H. now apply Z.eqb_eq in H. Qed.

(** A canonical mantissa is left alone by the rounding shift. *)
Lemma shr_fexp_exact (m : positive) (e : Z) :
  canonical_mantissa prec emax m e = true ->
  shr_fexp prec emax (Zpos m) e loc_Exact
  = ({| shr_m := Zpos m; shr_r := false; shr_s := false |}, e).
Proof.
  intros H. unfold shr_fexp. simpl Zdigits2.
  rewrite (canonical_fexp _ _ H), Z.sub_diag. reflexivity.
Qed.

(** The product of a canonical mantissa with the mantissa [2^52] of [1]
    is shifted back by exactly 52 bits, all of them zero. *)
Lemma shr_fexp_shifted (m : positive) (e : Z) :
  canonical_mantissa prec emax m e = true ->
  shr_fexp prec emax (Zpos (m * 4503599627370496)) (e + -52) loc_Exact
  = ({| shr_m := Zpos m; shr_r := false; shr_s := false |}, e).
Proof.
  intros H. unfold shr_fexp.
  rewrite Pos.mul_comm. cbn [Pos.mul Zdigits2 digits2_pos].
  replace (Zpos _ + (e + -52))%Z with (Zpos (digits2_pos m) + e)%Z by lia.
  rewrite (canonical_fexp _ _ H).
  replace (e - (e + -52))%Z with 52%Z by lia.
  cbn [shr shr_record_of_loc iter_pos shr_1 orb].
  f_equal. lia.
Qed.

Lemma SFmul_one (x : spec_float) :
  valid_binary x = true ->
  SF64mul x (S754_finite false 4503599627370496 (-52)) = x.
Proof.
  destruct x as [s | s | | s m e]; simpl; intros H;
    try (rewrite xorb_false_r; reflexivity); try reflexivity.
  unfold bounded in H. apply andb_prop in H. destruct H as [Hc He].
  unfold binary_round_aux.
  rewrite (shr_fexp_shifted _ _ Hc).
  cbn [shr_m loc_of_shr_record round_nearest_even].
  rewrite (shr_fexp_exact _ _ Hc). cbn [shr_m].
  rewrite He, xorb_false_r. reflexivity.
Qed.

(** Multiplying a number by [1] gives the number back, whatever it is. *)
Lemma mul_one_r (x : number) : x * 1 = x.
Proof.
  apply Prim2SF_inj. rewrite mul_spec, one_repr.
  apply SFmul_one, Prim2SF_valid.
Qed.

(** Adding [0] twice is adding it once ([-0 + 0] is [+0], every other
    number is unchanged). *)
Lemma add_zero_idem (x : number) : x + 0 + 0 = x + 0.
Proof.
  apply Prim2SF_inj. rewrite !add_spec, zero_repr.
  destruct (Prim2SF x) as [[] | [] | | ]; reflexivity.
Qed.

(** Adding [0] does not change how a number compares. *)
Lemma leb_add_zero (x e : number) : (x + 0 <=? e) = (x <=? e).
Proof.
  rewrite !leb_spec, add_spec, zero_repr.
  destruct (Prim2SF x) as [[] | [] | | ]; reflexivity.
Qed.

End Arithmetic.

(** ** Facts about the loops *)

Section Loops.

Context {A : Type}.
Variables (cond : number -> bool) (next : number -> number)
  (body : number -> A -> A).

(** More fuel does not change a result. *)
Lemma forLoop_more_fuel (fuel : nat) :
  forall fuel' v acc r,
    forLoop fuel cond next body v acc = Some r ->
    (fuel <= fuel')%nat ->
    forLoop fuel' cond next body v acc = Some r.
Proof.
  induction fuel as [| fuel IH]; intros fuel' v acc r Hrun Hle.
  - discriminate.
  - destruct fuel' as [| fuel']; [lia |].
    simpl in *. destruct (cond v); [| exact Hrun].
    apply IH; [exact Hrun | lia].
Qed.

Lemma forLoop_deterministic (f1 f2 : nat) v acc r1 r2 :
  forLoop f1 cond next body v acc = Some r1 ->
  forLoop f2 cond next body v acc = Some r2 ->
  r1 = r2.
Proof.
  intros H1 H2.
  apply forLoop_more_fuel with (fuel' := Nat.max f1 f2) in H1; [| lia].
  apply forLoop_more_fuel with (fuel' := Nat.max f1 f2) in H2; [| lia].
  congruence.
Qed.

(** A property of the accumulator kept by every iteration that runs holds
    when the loop is left. *)
Lemma forLoop_invariant (P : A -> Prop) :
  (forall v acc, cond v = true -> P acc -> P (body v acc)) ->
  forall fuel v acc r,
    P acc -> forLoop fuel cond next body v acc = Some r -> P r.
Proof.
  intros Hbody. induction fuel as [| fuel IH]; intros v acc r Hacc Hrun.
  - discriminate.
  - simpl in Hrun. destruct (cond v) eqn:Hc.
    + eapply IH; [| exact Hrun]. now apply Hbody.
    + now inversion Hrun; subst.
Qed.

(** A loop whose variable no longer moves while its condition holds is
    never left. *)
Lemma forLoop_stalled (v : number) :
  cond v = true -> next v = v ->
  forall fuel acc, forLoop fuel cond next body v acc = None.
Proof.
  intros Hc Hn. induction fuel as [| fuel IH]; intros acc.
  - reflexivity.
  - simpl. rewrite Hc, Hn. apply IH.
Qed.

(** The same when the variable stops moving after one more step. *)
Lemma forLoop_stalled_next (v : number) :
  cond v = true -> cond (next v) = true -> next (next v) = next v ->
  forall fuel acc, forLoop fuel cond next body v acc = None.
Proof.
  intros Hc Hc' Hn [| fuel] acc; [reflexivity |].
  simpl. rewrite Hc. now apply forLoop_stalled.
Qed.

End Loops.

(** ** Facts about templates *)

Section Templates.

Variable toString : number -> string.

Lemma append_assoc (a b c : string) :
  ((a ++ b) ++ c = a ++ (b ++ c))%string.
Proof. induction a as [| ch a IH]; simpl; [reflexivity | now rewrite IH]. Qed.

Lemma render_app (a b : template) :
  render toString (a ++ b)
  = (render toString a ++ render toString b)%string.
Proof.
  induction a as [| [lit | n] a IH]; simpl.
  - reflexivity.
  - now rewrite IH, append_assoc.
  - now rewrite IH, append_assoc.
Qed.

(** Two templates around the same middle part render alike as soon as
    their outer parts do, however those are cut into pieces. *)
Lemma render_between (a a' b b' gl : template) :
  render toString a = render toString a' ->
  render toString b = render toString b' ->
  render toString (a ++ gl ++ b) = render toString (a' ++ gl ++ b').
Proof. intros Ha Hb. rewrite !render_app. now rewrite Ha, Hb. Qed.

End Templates.

(** ** Facts about the generator *)

Section Generator.

Variable s : GridSettings.

(** What [generateSVG] returns is the markup around the grid lines. *)
Lemma generateSVG_markup (fuel : nat) (out : template) :
  generateSVG fuel s = Some out ->
  exists gridLines,
    gridLinesOf fuel s = Some gridLines /\ out = markup s gridLines.
Proof.
  unfold generateSVG. destruct (gridLinesOf fuel s) as [gl |]; [| discriminate].
  intros H. inversion H. now exists gl.
Qed.

Lemma gridLinesOf_more_fuel (fuel fuel' : nat) (gl : template) :
  gridLinesOf fuel s = Some gl -> (fuel <= fuel')%nat ->
  gridLinesOf fuel' s = Some gl.
Proof.
  unfold gridLinesOf, verticalLines, horizontalLines. intros H Hle.
  destruct (forLoop fuel _ _ (verticalBody s) _ _) as [v |] eqn:Hv;
    [| discriminate].
  rewrite (forLoop_more_fuel _ _ _ _ _ _ _ _ Hv Hle).
  exact (forLoop_more_fuel _ _ _ _ _ _ _ _ H Hle).
Qed.

Lemma gridLinesOf_deterministic (f1 f2 : nat) (g1 g2 : template) :
  gridLinesOf f1 s = Some g1 -> gridLinesOf f2 s = Some g2 -> g1 = g2.
Proof.
  intros H1 H2.
  apply gridLinesOf_more_fuel with (fuel' := Nat.max f1 f2) in H1; [| lia].
  apply gridLinesOf_more_fuel with (fuel' := Nat.max f1 f2) in H2; [| lia].
  congruence.
Qed.

Lemma generateSVG_more_fuel (fuel fuel' : nat) (out : template) :
  generateSVG fuel s = Some out -> (fuel <= fuel')%nat ->
  generateSVG fuel' s = Some out.
Proof.
  intros H Hle. destruct (generateSVG_markup _ _ H) as (gl & Hgl & ->).
  unfold generateSVG. now rewrite (gridLinesOf_more_fuel _ _ _ Hgl Hle).
Qed.

(** *** The grid is a sequence of line elements of the rectangle *)

Lemma lineElements_snoc (ls : list Line) (l : Line) :
  lineElements ls ++ lineElement l = lineElements (ls ++ [l]).
Proof.
  unfold lineElements. rewrite flat_map_app. cbn [flat_map].
  now rewrite app_nil_r.
Qed.

Lemma verticalBody_invariant (x : number) (gl : template) :
  gridInvariant s gl -> gridInvariant s (verticalBody s x gl).
Proof.
  intros (ls & -> & Hls). unfold verticalBody.
  destruct ((x >=? rectX s) && (x <=? rectX s + rectW s)) eqn:Hguard.
  - exists (ls ++ [ {| x1 := x; y1 := gridStartY s; x2 := x;
                       y2 := gridEndY s;
                       strokeWidth := lineWidth s * mmToPixel |} ]).
    split; [now rewrite <- lineElements_snoc |].
    apply Forall_app. split; [exact Hls |].
    constructor; [| constructor].
    split; [left | reflexivity].
    repeat split. exact Hguard.
  - now exists ls.
Qed.

Lemma horizontalBody_invariant (y : number) (gl : template) :
  gridInvariant s gl -> gridInvariant s (horizontalBody s y gl).
Proof.
  intros (ls & -> & Hls). unfold horizontalBody.
  destruct ((y >=? rectY s) && (y <=? rectY s + rectH s)) eqn:Hguard.
  - exists (ls ++ [ {| x1 := gridStartX s; y1 := y; x2 := gridEndX s;
                       y2 := y;
                       strokeWidth := lineWidth s * mmToPixel |} ]).
    split; [now rewrite <- lineElements_snoc |].
    apply Forall_app. split; [exact Hls |].
    constructor; [| constructor].
    split; [right | reflexivity].
    repeat split. exact Hguard.
  - now exists ls.
Qed.

Lemma gridLinesOf_invariant (fuel : nat) (gl : template) :
  gridLinesOf fuel s = Some gl -> gridInvariant s gl.
Proof.
  unfold gridLinesOf, verticalLines, horizontalLines.
  destruct (forLoop fuel _ _ (verticalBody s) _ _) as [v |] eqn:Hv;
    [| discriminate].
  intros Hh.
  eapply forLoop_invariant; [| | exact Hh].
  - intros y acc _. apply horizontalBody_invariant.
  - eapply forLoop_invariant; [| | exact Hv].
    + intros x acc _. apply verticalBody_invariant.
    + exists []. split; [reflexivity | constructor].
Qed.

Lemma gridLine_inside (l : Line) :
  properRectangle s = true -> gridLineOf s l -> insideRectangle s l = true.
Proof.
  unfold properRectangle, insideRectangle.
  intros Hp [[(Hx & Hin & Hy1 & Hy2) | (Hy & Hin & Hx1 & Hx2)] _];
    apply andb_prop in Hp; destruct Hp as [HX HY].
  - rewrite <- Hx, Hin, Hy1, Hy2.
    now rewrite (within_lower _ _ HY), (within_upper _ _ HY).
  - rewrite <- Hy, Hin, Hx1, Hx2.
    now rewrite (within_lower _ _ HX), (within_upper _ _ HX).
Qed.

(** *** Zero spacing *)

Lemma zero_scaled : 0 * mmToPixel = 0.
Proof. reflexivity. Qed.

Lemma verticalLines_zero_spacing (fuel : nat) (gl : template) :
  gridSpacingX s = 0 -> (rectX s <=? gridEndX s) = true ->
  verticalLines fuel s gl = None.
Proof.
  intros H0 Hin. unfold verticalLines, spacingX, alignedStartX.
  rewrite H0, zero_scaled.
  apply forLoop_stalled_next.
  - exact Hin.
  - now rewrite leb_add_zero.
  - apply add_zero_idem.
Qed.

Lemma horizontalLines_zero_spacing (fuel : nat) (gl : template) :
  gridSpacingY s = 0 -> (rectY s <=? gridEndY s) = true ->
  horizontalLines fuel s gl = None.
Proof.
  intros H0 Hin. unfold horizontalLines, spacingY, alignedStartY.
  rewrite H0, zero_scaled.
  apply forLoop_stalled_next.
  - exact Hin.
  - now rewrite leb_add_zero.
  - apply add_zero_idem.
Qed.

(** With a zero spacing on an axis along which the rectangle has an
    extent, no amount of fuel lets [generateSVG] return. *)
Lemma generateSVG_zero_spacing (fuel : nat) :
  (gridSpacingX s = 0 /\ (rectX s <=? gridEndX s) = true) \/
  (gridSpacingY s = 0 /\ (rectY s <=? gridEndY s) = true) ->
  generateSVG fuel s = None.
Proof.
  unfold generateSVG, gridLinesOf. intros [[H0 Hin] | [H0 Hin]].
  - now rewrite verticalLines_zero_spacing.
  - destruct (verticalLines fuel s []) as [gl |]; [| reflexivity].
    now rewrite horizontalLines_zero_spacing.
Qed.

End Generator.

(** Replaces a returned markup by the template around its grid lines
    [gl], with [Hgl] saying where they come from. *)
Ltac returned_markup H gl Hgl :=
  destruct (generateSVG_markup _ _ _ H) as (gl & Hgl & ->).

(** A spacing too small to move the abscissa stalls the first loop in the
    same way, whether it is negative or positive; so does a negative one
    large enough to take the abscissa to minus infinity. *)
Lemma absorbed_spacing_never_returns (fuel : nat) :
  generateSVG fuel (withGridSpacingX (-1e-15) defaultSettings) = None /\
  generateSVG fuel (withGridSpacingX 1e-15 defaultSettings) = None /\
  generateSVG fuel (withGridSpacingX (-1e308) defaultSettings) = None.
Proof.
  unfold generateSVG, gridLinesOf, verticalLines.
  split; [| split].
  - rewrite forLoop_stalled; reflexivity.
  - rewrite forLoop_stalled; reflexivity.
  - rewrite forLoop_stalled_next; reflexivity.
Qed.

Lemma parseLines_lineElements (ls : list Line) :
  parseLines (lineElements ls) = Some ls.
Proof.
  induction ls as [| [vx1 vy1 vx2 vy2 w] ls IH]; [reflexivity |].
  change (lineElements ({| x1 := vx1; y1 := vy1; x2 := vx2; y2 := vy2;
                           strokeWidth := w |} :: ls))
    with (lineMarkup vx1 vy1 vx2 vy2 w ++ lineElements ls).
  change (parseLines (lineMarkup vx1 vy1 vx2 vy2 w ++ lineElements ls))
    with (option_map
            (cons {| x1 := vx1; y1 := vy1; x2 := vx2; y2 := vy2;
                     strokeWidth := w |})
            (parseLines (lineElements ls))).
  now rewrite IH.
Qed.

Lemma rectangleElement_markup (s : GridSettings) (gl : template) :
  rectangleElement (markup s gl) = Some (rectX s, rectY s, rectW s, rectH s).
Proof.
  unfold rectangleElement, markup. rewrite !rev_app_distr.
  cbn [rev app]. reflexivity.
Qed.

Lemma declaredStrokeWidth_markup (s : GridSettings) (gl : template) :
  declaredStrokeWidth "page-boundary" (markup s gl) = Some (Lit "1") /\
  declaredStrokeWidth "rectangle" (markup s gl)
  = Some (Num (rectangleBorderWidth s * mmToPixel)) /\
  declaredStrokeWidth "grid-line" (markup s gl)
  = Some (Num (lineWidth s * mmToPixel)).
Proof. repeat split; vm_compute; reflexivity. Qed.

(** * The claims *)

(** C1 (the code does not do this).  The default page with the X spacing
    set to [0]: the first loop never leaves, so [generateSVG] returns
    nothing however much fuel it is given. *)
Theorem zero_spacing_never_returns :
  forall fuel, generateSVG fuel zeroSpacingSettings = None.
Proof.
  intros fuel. apply generateSVG_zero_spacing. left.
  split; reflexivity.
Qed.

(** C2 (the code does not do this).  With [gridType = dots] on the default
    page the markup is the one of [lines]: 19 [<line>] elements, no
    [<circle>], [<ellipse>] or [<path>], and the two [<rect>]. *)
Theorem dots_mode_draws_lines :
  gridType dotsSettings = dots /\
  exists out,
    generateSVG 20 dotsSettings = Some out /\
    generateSVG 20 defaultSettings = Some out /\
    elementCount "line" out = 19%nat /\
    elementCount "circle" out = 0%nat /\
    elementCount "ellipse" out = 0%nat /\
    elementCount "path" out = 0%nat /\
    elementCount "rect" out = 2%nat.
Proof.
  split; [reflexivity |].
  exists (markup defaultSettings defaultGridLines).
  repeat split; vm_compute; reflexivity.
Qed.

(** C3.  The page size in millimetres is the page size times the factor of
    its unit (1 for mm, 10 for cm, 25.4 for in); and a page 21 cm wide has
    the same device-space width, in the [viewBox] of the markup too, as a
    page 210 mm wide. *)
Theorem page_units_normalised :
  (forall s,
      pageWidthMm s = pageWidth s * unitFactor (pageUnit s) /\
      pageHeightMm s = pageHeight s * unitFactor (pageUnit s)) /\
  (forall s1 s2,
      pageUnit s1 = cm -> pageWidth s1 = 21 ->
      pageUnit s2 = mm -> pageWidth s2 = 210 ->
      svgWidth s1 = svgWidth s2 /\
      forall f1 f2 o1 o2,
        generateSVG f1 s1 = Some o1 -> generateSVG f2 s2 = Some o2 ->
        viewBoxWidth o1 = Some (svgWidth s1) /\
        viewBoxWidth o2 = Some (svgWidth s2)).
Proof.
  split.
  - intros s. unfold pageWidthMm, pageHeightMm, unitFactor.
    destruct (pageUnit s); split; try reflexivity; symmetry; apply mul_one_r.
  - intros s1 s2 Hu1 Hw1 Hu2 Hw2.
    assert (Hw : svgWidth s1 = svgWidth s2).
    { unfold svgWidth, pageWidthMm. rewrite Hu1, Hw1, Hu2, Hw2. reflexivity. }
    split; [exact Hw |].
    intros f1 f2 o1 o2 H1 H2.
    returned_markup H1 g1 Hg1. returned_markup H2 g2 Hg2.
    split; reflexivity.
Qed.

(** The default page given in centimetres and in millimetres. *)
Lemma page_units_normalised_witness :
  pageUnit centimetreSettings = cm /\ pageWidth centimetreSettings = 21 /\
  pageUnit defaultSettings = mm /\ pageWidth defaultSettings = 210 /\
  svgWidth centimetreSettings = svgWidth defaultSettings.
Proof.
  do 4 (split; [reflexivity |]).
  apply (proj2 page_units_normalised centimetreSettings defaultSettings);
    reflexivity.
Defined.

(** C4.  The rectangle element that closes the markup has its corner at
    [((pageWidthMm - rectangleWidth) / 2, (pageHeightMm - rectangleHeight)
    / 2)] and its size [rectangleWidth x rectangleHeight], all in device
    space; nothing clamps it: a rectangle of 300 x 400 on the A4 page is
    put at (-45, -51.5) mm. *)
Theorem rectangle_is_centred :
  (forall fuel s out,
      generateSVG fuel s = Some out ->
      rectangleElement out
      = Some ((pageWidthMm s - rectangleWidth s) / 2 * mmToPixel,
              (pageHeightMm s - rectangleHeight s) / 2 * mmToPixel,
              rectangleWidth s * mmToPixel,
              rectangleHeight s * mmToPixel)) /\
  (rectangleX oversizedSettings = -45 /\
   rectangleY oversizedSettings = -51.5 /\
   exists out,
     generateSVG 20 oversizedSettings = Some out /\
     rectangleElement out
     = Some (-45 * mmToPixel, -51.5 * mmToPixel,
             300 * mmToPixel, 400 * mmToPixel)).
Proof.
  split.
  - intros fuel s out H. returned_markup H gl Hgl.
    apply rectangleElement_markup.
  - split; [reflexivity | split; [reflexivity |]].
    destruct (generateSVG 20 oversizedSettings) as [out |] eqn:H;
      [| vm_compute in H; discriminate].
    exists out. split; [reflexivity |].
    returned_markup H gl Hgl. apply rectangleElement_markup.
Qed.

(** On the default page the rectangle is at (55, 108.5) mm. *)
Lemma rectangle_is_centred_witness :
  generateSVG 20 defaultSettings = Some (markup defaultSettings defaultGridLines)
  /\ rectangleElement (markup defaultSettings defaultGridLines)
     = Some (55 * mmToPixel, 108.5 * mmToPixel,
             100 * mmToPixel, 80 * mmToPixel).
Proof.
  split; [reflexivity |].
  apply (proj1 rectangle_is_centred 20%nat defaultSettings). reflexivity.
Defined.

(** C5 as stated fails.  With positive spacings and a rectangle of width
    -10 the first loop is not entered and the second one draws nine
    horizontal lines from [rectX] to [rectX + rectW], which is to the left
    of [rectX]: none of them lies within the rectangle's interval. *)
Lemma negative_width_lines_outside :
  (0 <? gridSpacingX negativeWidthSettings) = true /\
  (0 <? gridSpacingY negativeWidthSettings) = true /\
  properRectangle negativeWidthSettings = false /\
  exists gl ls,
    gridLinesOf 20 negativeWidthSettings = Some gl /\
    parseLines gl = Some ls /\
    List.length ls = 9%nat /\
    existsb (insideRectangle negativeWidthSettings) ls = false /\
    forallb (insideRectangle negativeWidthSettings) ls = false.
Proof.
  do 3 (split; [reflexivity |]).
  eexists. eexists.
  split; [vm_compute; reflexivity |].
  split; [vm_compute; reflexivity |].
  split; [reflexivity |].
  split; vm_compute; reflexivity.
Qed.

(** C5, amended.  Whenever the grid is produced it is a sequence of line
    elements, each either vertical, at an abscissa within the rectangle's
    extent and drawn from its top edge to its bottom edge, or horizontal,
    at an ordinate within the extent and drawn from its left edge to its
    right edge; and when that extent is a genuine interval on both axes
    ([rectX <= rectX + rectW] and [rectY <= rectY + rectH]) all four
    coordinates of every line lie within it, edges included.  (No
    condition on the spacing is needed.) *)
Theorem grid_lines_within_rectangle (fuel : nat) (s : GridSettings)
    (gl : template) :
  gridLinesOf fuel s = Some gl ->
  exists ls,
    parseLines gl = Some ls /\
    Forall (gridLineOf s) ls /\
    (properRectangle s = true -> forallb (insideRectangle s) ls = true).
Proof.
  intros H. destruct (gridLinesOf_invariant _ _ _ H) as (ls & -> & Hls).
  exists ls. split; [apply parseLines_lineElements | split; [exact Hls |]].
  intros Hp. apply forallb_forall. intros l Hl.
  apply gridLine_inside; [exact Hp |].
  now apply (proj1 (Forall_forall _ _) Hls).
Qed.

(** The grid of the default page, whose rectangle is a genuine one. *)
Lemma grid_lines_within_rectangle_witness :
  gridLinesOf 20 defaultSettings = Some defaultGridLines /\
  properRectangle defaultSettings = true /\
  exists ls,
    parseLines defaultGridLines = Some ls /\
    Forall (gridLineOf defaultSettings) ls /\
    (properRectangle defaultSettings = true ->
     forallb (insideRectangle defaultSettings) ls = true).
Proof.
  split; [reflexivity | split; [reflexivity |]].
  apply (grid_lines_within_rectangle 20 defaultSettings). reflexivity.
Defined.

(** C6.  The returned string is, in this order: the document head, whose
    style block gives the page boundary and the rectangle [fill: none] and
    the rectangle a stroke of [rectangleBorderWidth] in device space; the
    page-boundary [<rect>] over the whole canvas; the grid, made of line
    elements only; the rectangle [<rect>]; the closing tag. *)
Theorem markup_order (toString : number -> string) (fuel : nat)
    (s : GridSettings) (out : string) :
  generateSVGString toString fuel s = Some out ->
  exists gl ls,
    gridLinesOf fuel s = Some gl /\
    gl = lineElements ls /\
    out = render toString (orderedMarkup s gl).
Proof.
  unfold generateSVGString. intros H.
  destruct (generateSVG fuel s) as [t |] eqn:Ht; [| discriminate].
  inversion H as [Hout]. clear H.
  returned_markup Ht gl Hgl.
  destruct (gridLinesOf_invariant _ _ _ Hgl) as (ls & Hls & _).
  exists gl, ls. split; [exact Hgl | split; [exact Hls |]].
  unfold markup, orderedMarkup.
  apply render_between; vm_compute; reflexivity.
Qed.

(** The default page returns, and its string is in that order. *)
Lemma markup_order_witness :
  exists out gl ls,
    generateSVGString placeholder 20 defaultSettings = Some out /\
    gridLinesOf 20 defaultSettings = Some gl /\
    gl = lineElements ls /\
    out = render placeholder (orderedMarkup defaultSettings gl).
Proof.
  destruct (generateSVGString placeholder 20 defaultSettings) as [out |] eqn:H;
    [| vm_compute in H; discriminate].
  destruct (markup_order _ _ _ _ H) as (gl & ls & H1 & H2 & H3).
  now exists out, gl, ls.
Defined.

(** C7 (the code does not do this).  On the default A4 page the rectangle
    is at (55, 108.5) mm and the canvas is 210 K x 297 K, about 793.7 x
    1122.5; but the grid has 10 vertical lines, not 11, next to its 9
    horizontal ones: the abscissa reached after ten additions of the
    spacing is above [gridEndX], so the line on the right edge is not
    drawn.  More fuel changes nothing. *)
Theorem default_page_scenario :
  rectangleX defaultSettings = 55 /\
  rectangleY defaultSettings = 108.5 /\
  svgWidth defaultSettings = 210 * mmToPixel /\
  svgHeight defaultSettings = 297 * mmToPixel /\
  within 793.65 793.75 (svgWidth defaultSettings) = true /\
  within 1122.45 1122.55 (svgHeight defaultSettings) = true /\
  exists gl ls,
    (forall fuel, gridLinesOf (20 + fuel) defaultSettings = Some gl) /\
    parseLines gl = Some ls /\
    List.length (filter isVertical ls) = 10%nat /\
    List.length (filter isHorizontal ls) = 9%nat /\
    elementCount "line" (markup defaultSettings gl) = 19%nat /\
    (gridEndX defaultSettings
     <? Nat.iter 10 (fun x => x + spacingX defaultSettings)
          (alignedStartX defaultSettings)) = true.
Proof.
  do 6 (split; [reflexivity |]).
  destruct (parseLines defaultGridLines) as [ls |] eqn:Hls;
    [| vm_compute in Hls; discriminate].
  exists defaultGridLines, ls. split.
  - intros fuel.
    apply gridLinesOf_more_fuel with (fuel := 20%nat); [reflexivity | lia].
  - split; [exact Hls |].
    vm_compute in Hls. inversion Hls. subst ls.
    repeat split; vm_compute; reflexivity.
Qed.

(** C9 as stated fails.  On the default page the declared stroke width of
    the page boundary is 1, which is no setting of that page converted to
    device space. *)
Lemma page_boundary_stroke_is_fixed :
  exists out,
    generateSVG 20 defaultSettings = Some out /\
    option_map strokeWidthValue (declaredStrokeWidth "page-boundary" out)
    = Some (Some 1) /\
    isScaledSetting defaultSettings 1 = false /\
    strokeWidthsAllScaled defaultSettings out = false.
Proof.
  exists (markup defaultSettings defaultGridLines).
  split; [reflexivity |]. split; [reflexivity |].
  split; vm_compute; reflexivity.
Qed.

(** C9, amended.  The style block declares a stroke width for each of the
    three classes: the rectangle's is [rectangleBorderWidth] and the grid
    line's is [lineWidth], both multiplied by K; the page boundary's is the
    fixed text [1]. *)
Theorem style_stroke_widths (fuel : nat) (s : GridSettings) (out : template) :
  generateSVG fuel s = Some out ->
  declaredStrokeWidth "page-boundary" out = Some (Lit "1") /\
  declaredStrokeWidth "rectangle" out
  = Some (Num (rectangleBorderWidth s * mmToPixel)) /\
  declaredStrokeWidth "grid-line" out = Some (Num (lineWidth s * mmToPixel)).
Proof.
  intros H. returned_markup H gl Hgl.
  apply declaredStrokeWidth_markup.
Qed.

(** The default page: border 0.4 mm and line width 0.2 mm, times K. *)
Lemma style_stroke_widths_witness :
  generateSVG 20 defaultSettings
  = Some (markup defaultSettings defaultGridLines) /\
  declaredStrokeWidth "rectangle" (markup defaultSettings defaultGridLines)
  = Some (Num (0.4 * mmToPixel)) /\
  declaredStrokeWidth "grid-line" (markup defaultSettings defaultGridLines)
  = Some (Num (0.2 * mmToPixel)).
Proof.
  split; [reflexivity |].
  apply (style_stroke_widths 20%nat defaultSettings). reflexivity.
Defined.

(** C10.  Two settings that agree on everything but [gridType] and
    [dotSize] give the same result, with any fuel. *)
Theorem output_ignores_grid_type (s s' : GridSettings) :
  pageWidth s = pageWidth s' ->
  pageHeight s = pageHeight s' ->
  pageUnit s = pageUnit s' ->
  gridSpacingX s = gridSpacingX s' ->
  gridSpacingY s = gridSpacingY s' ->
  lineWidth s = lineWidth s' ->
  rectangleWidth s = rectangleWidth s' ->
  rectangleHeight s = rectangleHeight s' ->
  rectangleBorderWidth s = rectangleBorderWidth s' ->
  forall toString fuel,
    generateSVG fuel s = generateSVG fuel s' /\
    generateSVGString toString fuel s = generateSVGString toString fuel s'.
Proof.
  destruct s, s'. simpl. intros; subst.
  split; reflexivity.
Qed.

(** The default page in dots mode with another dot size, and as it is. *)
Lemma output_ignores_grid_type_witness :
  gridType dotsSettings <> gridType defaultSettings /\
  dotSize dotsSettings <> dotSize defaultSettings /\
  generateSVGString placeholder 20 dotsSettings
  = generateSVGString placeholder 20 defaultSettings.
Proof.
  split; [discriminate |].
  split; [intros H; apply (f_equal (fun x => x =? 1)) in H;
          vm_compute in H; discriminate |].
  apply (output_ignores_grid_type dotsSettings defaultSettings); reflexivity.
Defined.

(** * Beyond the claims *)

(** ** The loops, unrolled *)

Section Unrolling.

Context {B : Type}.
Variables (cond : number -> bool) (next : number -> number).

(** Bodies that agree give the same loop. *)
Lemma forLoop_ext (body body' : number -> B -> B) :
  (forall v acc, body v acc = body' v acc) ->
  forall fuel v acc,
    forLoop fuel cond next body v acc = forLoop fuel cond next body' v acc.
Proof.
  intros Hext. induction fuel as [| fuel IH]; intros v acc; [reflexivity |].
  simpl. destruct (cond v); [| reflexivity]. now rewrite Hext, IH.
Qed.

End Unrolling.

Section Appending.

Context {B : Type}.
Variables (cond : number -> bool) (next : number -> number)
  (emit : number -> list B).

(** A loop that only appends returns what it was given followed by what
    each value of its variable contributed, the condition holding on all
    of these values and failing on the next. *)
Lemma forLoop_unrolled (fuel : nat) :
  forall v acc r,
    forLoop fuel cond next (fun x a => a ++ emit x) v acc = Some r ->
    exists n,
      (n < fuel)%nat /\
      r = acc ++ flat_map emit (iterates next n v) /\
      Forall (fun x => cond x = true) (iterates next n v) /\
      cond (Nat.iter n next v) = false.
Proof.
  induction fuel as [| fuel IH]; intros v acc r Hrun; [discriminate |].
  simpl in Hrun. destruct (cond v) eqn:Hc.
  - apply IH in Hrun. destruct Hrun as (n & Hn & -> & Hall & Hend).
    exists (S n). split; [lia |]. split; [| split].
    + simpl. now rewrite app_assoc.
    + now constructor.
    + now rewrite Nat.iter_succ_r.
  - inversion Hrun; subst r. exists 0%nat. split; [lia |].
    split; [now rewrite app_nil_r | split; [constructor | exact Hc]].
Qed.

End Appending.

Lemma lineElements_app (a b : list Line) :
  lineElements (a ++ b) = lineElements a ++ lineElements b.
Proof. apply flat_map_app. Qed.

Lemma lineElements_flat_map (f : number -> list Line) (xs : list number) :
  flat_map (fun x => lineElements (f x)) xs = lineElements (flat_map f xs).
Proof.
  induction xs as [| x xs IH]; [reflexivity |].
  simpl. now rewrite IH, lineElements_app.
Qed.

Section GridPositions.

Variable s : GridSettings.

Lemma verticalBody_appends (x : number) (gl : template) :
  verticalBody s x gl = gl ++ lineElements (verticalDrawn s x).
Proof.
  unfold verticalBody, verticalDrawn.
  destruct ((x >=? rectX s) && (x <=? rectX s + rectW s)).
  - reflexivity.
  - simpl. now rewrite app_nil_r.
Qed.

Lemma horizontalBody_appends (y : number) (gl : template) :
  horizontalBody s y gl = gl ++ lineElements (horizontalDrawn s y).
Proof.
  unfold horizontalBody, horizontalDrawn.
  destruct ((y >=? rectY s) && (y <=? rectY s + rectH s)).
  - reflexivity.
  - simpl. now rewrite app_nil_r.
Qed.

(** Positions that pass the loop's test are drawn exactly when they are
    not before the rectangle's origin. *)
Lemma verticalDrawn_candidates (xs : list number) :
  Forall (fun x => (x <=? gridEndX s) = true) xs ->
  flat_map (verticalDrawn s) xs
  = map (verticalAt s) (filter (fun x => x >=? rectX s) xs).
Proof.
  induction 1 as [| x xs Hx _ IH]; [reflexivity |].
  simpl. rewrite IH. unfold verticalDrawn.
  change (rectX s + rectW s) with (gridEndX s). rewrite Hx, andb_true_r.
  now destruct (x >=? rectX s).
Qed.

Lemma horizontalDrawn_candidates (ys : list number) :
  Forall (fun y => (y <=? gridEndY s) = true) ys ->
  flat_map (horizontalDrawn s) ys
  = map (horizontalAt s) (filter (fun y => y >=? rectY s) ys).
Proof.
  induction 1 as [| y ys Hy _ IH]; [reflexivity |].
  simpl. rewrite IH. unfold horizontalDrawn.
  change (rectY s + rectH s) with (gridEndY s). rewrite Hy, andb_true_r.
  now destruct (y >=? rectY s).
Qed.

(** The first loop, unrolled. *)
Lemma verticalLines_unrolled (fuel : nat) (acc gl : template) :
  verticalLines fuel s acc = Some gl ->
  exists n,
    (n < fuel)%nat /\
    gl = acc ++ lineElements
                  (map (verticalAt s)
                     (filter (fun x => x >=? rectX s) (abscissas s n))) /\
    Forall (fun x => (x <=? gridEndX s) = true) (abscissas s n) /\
    (abscissa s n <=? gridEndX s) = false.
Proof.
  unfold verticalLines. intros H.
  rewrite (forLoop_ext _ _ _ _ (verticalBody_appends)) in H.
  apply forLoop_unrolled in H. destruct H as (n & Hn & -> & Hall & Hend).
  exists n. split; [exact Hn |]. split; [| split; assumption].
  now rewrite lineElements_flat_map, (verticalDrawn_candidates _ Hall).
Qed.

Lemma horizontalLines_unrolled (fuel : nat) (acc gl : template) :
  horizontalLines fuel s acc = Some gl ->
  exists m,
    (m < fuel)%nat /\
    gl = acc ++ lineElements
                  (map (horizontalAt s)
                     (filter (fun y => y >=? rectY s) (ordinates s m))) /\
    Forall (fun y => (y <=? gridEndY s) = true) (ordinates s m) /\
    (ordinate s m <=? gridEndY s) = false.
Proof.
  unfold horizontalLines. intros H.
  rewrite (forLoop_ext _ _ _ _ (horizontalBody_appends)) in H.
  apply forLoop_unrolled in H. destruct H as (m & Hm & -> & Hall & Hend).
  exists m. split; [exact Hm |]. split; [| split; assumption].
  now rewrite lineElements_flat_map, (horizontalDrawn_candidates _ Hall).
Qed.

End GridPositions.

(** X1.  Whenever the grid is produced, its vertical lines come first, at
    the values the abscissa takes from the rectangle's origin by repeated
    addition of the spacing, up to the last one that is not beyond the far
    edge, those before the origin left out; the horizontal lines follow in
    the same way. *)
Theorem grid_is_its_positions (fuel : nat) (s : GridSettings) (gl : template) :
  gridLinesOf fuel s = Some gl ->
  exists n m,
    (n < fuel)%nat /\ (m < fuel)%nat /\
    parseLines gl
    = Some (map (verticalAt s)
              (filter (fun x => x >=? rectX s) (abscissas s n)) ++
            map (horizontalAt s)
              (filter (fun y => y >=? rectY s) (ordinates s m))) /\
    Forall (fun x => (x <=? gridEndX s) = true) (abscissas s n) /\
    (abscissa s n <=? gridEndX s) = false /\
    Forall (fun y => (y <=? gridEndY s) = true) (ordinates s m) /\
    (ordinate s m <=? gridEndY s) = false.
Proof.
  unfold gridLinesOf. intros H.
  destruct (verticalLines fuel s []) as [v |] eqn:Hv; [| discriminate].
  apply verticalLines_unrolled in Hv.
  destruct Hv as (n & Hn & -> & Hxs & Hx).
  apply horizontalLines_unrolled in H.
  destruct H as (m & Hm & -> & Hys & Hy).
  exists n, m. repeat (split; [assumption |]).
  split; [| now repeat split].
  simpl. rewrite <- lineElements_app. apply parseLines_lineElements.
Qed.

(** The default page: eleven abscissas are gone through, nine ordinates. *)
Lemma grid_is_its_positions_witness :
  gridLinesOf 20 defaultSettings = Some defaultGridLines /\
  exists n m,
    (n < 20)%nat /\ (m < 20)%nat /\
    parseLines defaultGridLines
    = Some (map (verticalAt defaultSettings)
              (filter (fun x => x >=? rectX defaultSettings)
                 (abscissas defaultSettings n)) ++
            map (horizontalAt defaultSettings)
              (filter (fun y => y >=? rectY defaultSettings)
                 (ordinates defaultSettings m))) /\
    Forall (fun x => (x <=? gridEndX defaultSettings) = true)
      (abscissas defaultSettings n) /\
    (abscissa defaultSettings n <=? gridEndX defaultSettings) = false /\
    Forall (fun y => (y <=? gridEndY defaultSettings) = true)
      (ordinates defaultSettings m) /\
    (ordinate defaultSettings m <=? gridEndY defaultSettings) = false.
Proof.
  split; [reflexivity |].
  apply (grid_is_its_positions 20%nat defaultSettings). reflexivity.
Defined.

(** ** Where the grid starts, and when it is never produced *)

Section GridEdges.

Variable s : GridSettings.

Lemma verticalAt_is_vertical (xs : list number) :
  Forall (fun x => (x <=? gridEndX s) = true) xs ->
  Forall (verticalLineOf s)
    (map (verticalAt s) (filter (fun x => x >=? rectX s) xs)).
Proof.
  induction 1 as [| x xs Hx _ IH]; [constructor |].
  simpl. destruct (x >=? rectX s) eqn:Hge; [| exact IH].
  constructor; [| exact IH].
  repeat split. unfold within. simpl. rewrite Hge. exact Hx.
Qed.

Lemma horizontalAt_is_horizontal (ys : list number) :
  Forall (fun y => (y <=? gridEndY s) = true) ys ->
  Forall (horizontalLineOf s)
    (map (horizontalAt s) (filter (fun y => y >=? rectY s) ys)).
Proof.
  induction 1 as [| y ys Hy _ IH]; [constructor |].
  simpl. destruct (y >=? rectY s) eqn:Hge; [| exact IH].
  constructor; [| exact IH].
  repeat split. unfold within. simpl. rewrite Hge. exact Hy.
Qed.

(** A loop that is entered has its start among its positions. *)
Lemma abscissas_start (n : nat) :
  (rectX s <=? gridEndX s) = true ->
  (abscissa s n <=? gridEndX s) = false ->
  exists xs,
    filter (fun x => x >=? rectX s) (abscissas s n)
    = rectX s :: filter (fun x => x >=? rectX s) xs /\
    (Forall (fun x => (x <=? gridEndX s) = true) (abscissas s n) ->
     Forall (fun x => (x <=? gridEndX s) = true) xs).
Proof.
  intros Hin Hend. destruct n as [| n].
  - unfold abscissa, alignedStartX in Hend. simpl in Hend. congruence.
  - exists (iterates (fun x => x + spacingX s) n (rectX s + spacingX s)).
    unfold abscissas, alignedStartX. simpl.
    unfold geb at 1. rewrite (leb_refl_l _ _ Hin).
    split; [reflexivity |]. intros H. now inversion H.
Qed.

Lemma ordinates_start (m : nat) :
  (rectY s <=? gridEndY s) = true ->
  (ordinate s m <=? gridEndY s) = false ->
  exists ys,
    filter (fun y => y >=? rectY s) (ordinates s m)
    = rectY s :: filter (fun y => y >=? rectY s) ys /\
    (Forall (fun y => (y <=? gridEndY s) = true) (ordinates s m) ->
     Forall (fun y => (y <=? gridEndY s) = true) ys).
Proof.
  intros Hin Hend. destruct m as [| m].
  - unfold ordinate, alignedStartY in Hend. simpl in Hend. congruence.
  - exists (iterates (fun y => y + spacingY s) m (rectY s + spacingY s)).
    unfold ordinates, alignedStartY. simpl.
    unfold geb at 1. rewrite (leb_refl_l _ _ Hin).
    split; [reflexivity |]. intros H. now inversion H.
Qed.

End GridEdges.

(** X2.  When the rectangle's extent is a genuine interval on both axes,
    every grid that is produced starts with the vertical line on the
    rectangle's left edge, has only vertical lines up to the horizontal
    line on its top edge, and only horizontal lines after it. *)
Theorem grid_starts_on_the_edges (fuel : nat) (s : GridSettings)
    (gl : template) :
  gridLinesOf fuel s = Some gl ->
  properRectangle s = true ->
  exists vs hs,
    parseLines gl
    = Some (verticalAt s (rectX s) :: vs ++ horizontalAt s (rectY s) :: hs) /\
    Forall (verticalLineOf s) vs /\
    Forall (horizontalLineOf s) hs.
Proof.
  unfold gridLinesOf, properRectangle. intros H Hp.
  apply andb_prop in Hp. destruct Hp as [HX HY].
  destruct (verticalLines fuel s []) as [v |] eqn:Hv; [| discriminate].
  apply verticalLines_unrolled in Hv.
  destruct Hv as (n & _ & -> & Hxs & Hx).
  apply horizontalLines_unrolled in H.
  destruct H as (m & _ & -> & Hys & Hy).
  destruct (abscissas_start s n HX Hx) as (xs & -> & Hxs').
  destruct (ordinates_start s m HY Hy) as (ys & -> & Hys').
  exists (map (verticalAt s) (filter (fun x => x >=? rectX s) xs)),
         (map (horizontalAt s) (filter (fun y => y >=? rectY s) ys)).
  split; [| split].
  - rewrite app_nil_l, <- lineElements_app.
    exact (parseLines_lineElements _).
  - apply verticalAt_is_vertical. auto.
  - apply horizontalAt_is_horizontal. auto.
Qed.

(** The default page. *)
Lemma grid_starts_on_the_edges_witness :
  gridLinesOf 20 defaultSettings = Some defaultGridLines /\
  properRectangle defaultSettings = true /\
  exists vs hs,
    parseLines defaultGridLines
    = Some (verticalAt defaultSettings (rectX defaultSettings) :: vs ++
            horizontalAt defaultSettings (rectY defaultSettings) :: hs) /\
    Forall (verticalLineOf defaultSettings) vs /\
    Forall (horizontalLineOf defaultSettings) hs.
Proof.
  split; [reflexivity | split; [reflexivity |]].
  apply (grid_starts_on_the_edges 20%nat defaultSettings); reflexivity.
Defined.

(** X4.  If adding the spacing to the rectangle's origin gives the origin
    back, on an axis along which the loop is entered, [generateSVG] never
    returns; the spacing need not be zero for that. *)
Theorem unmoved_position_never_returns (s : GridSettings) :
  ((rectX s <=? gridEndX s) = true /\ rectX s + spacingX s = rectX s) \/
  ((rectY s <=? gridEndY s) = true /\ rectY s + spacingY s = rectY s) ->
  forall fuel, generateSVG fuel s = None.
Proof.
  unfold generateSVG, gridLinesOf, verticalLines, horizontalLines,
    alignedStartX, alignedStartY.
  intros [[Hin Hfix] | [Hin Hfix]] fuel.
  - now rewrite forLoop_stalled.
  - destruct (forLoop fuel _ _ (verticalBody s) _ _); [| reflexivity].
    now rewrite forLoop_stalled.
Qed.

(** A spacing of a femtometre on the default page. *)
Lemma unmoved_position_never_returns_witness :
  (0 <? gridSpacingX (withGridSpacingX 1e-15 defaultSettings)) = true /\
  forall fuel,
    generateSVG fuel (withGridSpacingX 1e-15 defaultSettings) = None.
Proof.
  split; [reflexivity |].
  apply (unmoved_position_never_returns
           (withGridSpacingX 1e-15 defaultSettings)).
  left. split; reflexivity.
Defined.

(** ** NaN spacings *)

Lemma add_nan_r (x : number) : x + nan = nan.
Proof.
  apply Prim2SF_inj. rewrite add_spec.
  change (Prim2SF nan) with S754_nan.
  now destruct (Prim2SF x) as [[] | [] | | ].
Qed.

Lemma leb_nan_l (e : number) : (nan <=? e) = false.
Proof. rewrite leb_spec. reflexivity. Qed.

Lemma nan_scaled : nan * mmToPixel = nan.
Proof. reflexivity. Qed.

Lemma verticalLines_nan (s : GridSettings) (acc : template) :
  gridSpacingX s = nan ->
  verticalLines 2 s acc
  = Some (acc ++ lineElements (verticalDrawn s (rectX s))).
Proof.
  intros Hnan. unfold verticalLines, spacingX, alignedStartX.
  rewrite Hnan, nan_scaled. simpl. rewrite add_nan_r, leb_nan_l.
  rewrite verticalBody_appends. unfold verticalDrawn.
  change (rectX s + rectW s) with (gridEndX s).
  destruct (rectX s <=? gridEndX s); [reflexivity |].
  rewrite andb_false_r. simpl. now rewrite app_nil_r.
Qed.

Lemma horizontalLines_nan (s : GridSettings) (acc : template) :
  gridSpacingY s = nan ->
  horizontalLines 2 s acc
  = Some (acc ++ lineElements (horizontalDrawn s (rectY s))).
Proof.
  intros Hnan. unfold horizontalLines, spacingY, alignedStartY.
  rewrite Hnan, nan_scaled. simpl. rewrite add_nan_r, leb_nan_l.
  rewrite horizontalBody_appends. unfold horizontalDrawn.
  change (rectY s + rectH s) with (gridEndY s).
  destruct (rectY s <=? gridEndY s); [reflexivity |].
  rewrite andb_false_r. simpl. now rewrite app_nil_r.
Qed.

(** X5.  With NaN for both spacings [generateSVG] returns after one turn
    of each loop: the grid is what the two origins alone contribute, which
    for a rectangle with a genuine extent is the line on its left edge and
    the line on its top edge. *)
Theorem nan_spacing_draws_the_edges (s : GridSettings) :
  gridSpacingX s = nan ->
  gridSpacingY s = nan ->
  exists gl,
    generateSVG 2 s = Some (markup s gl) /\
    parseLines gl
    = Some (verticalDrawn s (rectX s) ++ horizontalDrawn s (rectY s)) /\
    (properRectangle s = true ->
     parseLines gl
     = Some [verticalAt s (rectX s); horizontalAt s (rectY s)]).
Proof.
  intros HX HY.
  exists (lineElements
            (verticalDrawn s (rectX s) ++ horizontalDrawn s (rectY s))).
  split; [| split].
  - unfold generateSVG, gridLinesOf.
    rewrite (verticalLines_nan s [] HX), (horizontalLines_nan s _ HY).
    now rewrite app_nil_l, <- lineElements_app.
  - apply parseLines_lineElements.
  - unfold properRectangle. intros Hp. apply andb_prop in Hp.
    destruct Hp as [Hx Hy]. rewrite parseLines_lineElements.
    unfold verticalDrawn, horizontalDrawn, geb.
    now rewrite (leb_refl_l _ _ Hx), Hx, (leb_refl_l _ _ Hy), Hy.
Qed.

(** The default page with both spacings NaN. *)
Lemma nan_spacing_draws_the_edges_witness :
  exists gl,
    generateSVG 2 nanSpacingSettings = Some (markup nanSpacingSettings gl) /\
    parseLines gl
    = Some (verticalDrawn nanSpacingSettings (rectX nanSpacingSettings) ++
            horizontalDrawn nanSpacingSettings (rectY nanSpacingSettings)) /\
    (properRectangle nanSpacingSettings = true ->
     parseLines gl
     = Some [verticalAt nanSpacingSettings (rectX nanSpacingSettings);
             horizontalAt nanSpacingSettings (rectY nanSpacingSettings)]).
Proof.
  apply (nan_spacing_draws_the_edges nanSpacingSettings); reflexivity.
Defined.

(** ** The form *)

Lemma orZero_not_nan (parsed : number) : (orZero parsed =? orZero parsed) = true.
Proof.
  unfold orZero, truthy.
  destruct (parsed =? 0); [reflexivity |].
  destruct (parsed =? parsed) eqn:H; [exact H | reflexivity].
Qed.

Lemma orZero_falsy (parsed : number) : truthy parsed = false -> orZero parsed = 0.
Proof. unfold orZero. now intros ->. Qed.

Lemma unitOf_unitValue (u : PageUnit) : unitOf (Some (VString (unitValue u))) = u.
Proof. now destruct u. Qed.

Lemma holdsNumber_asNumber (v : option Value) :
  holdsNumber v = true -> exists n, asNumber v = Some n.
Proof. destruct v as [[n | str] |]; try discriminate. now exists n. Qed.

Lemma wellFormed_destructured (settings : SettingsObject) :
  wellFormed settings = true -> exists s, destructured settings = Some s.
Proof.
  unfold wellFormed, destructured. rewrite !andb_true_iff.
  intros [[[[[[[[[[H1 H2] H3] H4] H5] H6] H7] H8] _] _] _].
  destruct (holdsNumber_asNumber _ H1) as (n1 & ->).
  destruct (holdsNumber_asNumber _ H2) as (n2 & ->).
  destruct (holdsNumber_asNumber _ H3) as (n3 & ->).
  destruct (holdsNumber_asNumber _ H4) as (n4 & ->).
  destruct (holdsNumber_asNumber _ H5) as (n5 & ->).
  destruct (holdsNumber_asNumber _ H6) as (n6 & ->).
  destruct (holdsNumber_asNumber _ H7) as (n7 & ->).
  destruct (holdsNumber_asNumber _ H8) as (n8 & ->).
  eexists. reflexivity.
Qed.

Lemma handle_wellFormed (settings settings' : SettingsObject) (e : Event) :
  wellFormed settings = true -> handle settings e = Some settings' ->
  wellFormed settings' = true.
Proof.
  intros Hwf H. destruct e as [key parsed | u | g]; simpl in H.
  - destruct (hasNumberInput settings key) eqn:Hshown; [| discriminate].
    inversion H; subst settings'. clear H.
    pose proof (orZero_not_nan parsed) as Hn.
    unfold wellFormed in *. rewrite !andb_true_iff in Hwf.
    destruct Hwf as [[[[[[[[[[H1 H2] H3] H4] H5] H6] H7] H8] H9] H10] H11].
    destruct key; try discriminate Hshown; unfold updateSetting; simpl;
      rewrite ?H1, ?H2, ?H3, ?H4, ?H5, ?H6, ?H7, ?H8, ?H9, ?H10, ?H11, ?Hn;
      reflexivity.
  - inversion H; subst settings'. clear H.
    unfold wellFormed in *. rewrite !andb_true_iff in Hwf.
    destruct Hwf as [[[[[[[[[[H1 H2] H3] H4] H5] H6] H7] H8] H9] H10] H11].
    unfold updateSetting; simpl.
    rewrite H1, H2, H3, H4, H5, H6, H7, H8, H10, H11.
    now destruct u.
  - inversion H; subst settings'. clear H.
    unfold wellFormed in *. rewrite !andb_true_iff in Hwf.
    destruct Hwf as [[[[[[[[[[H1 H2] H3] H4] H5] H6] H7] H8] H9] H10] H11].
    unfold setGridType; simpl.
    rewrite H1, H2, H3, H4, H5, H6, H7, H8, H9, H11.
    now destruct g.
Qed.

Lemma run_wellFormed (events : list Event) :
  forall settings settings',
    wellFormed settings = true -> run settings events = Some settings' ->
    wellFormed settings' = true.
Proof.
  induction events as [| e events IH]; intros settings settings' Hwf H.
  - simpl in H. now inversion H; subst.
  - simpl in H. destruct (handle settings e) as [next |] eqn:He;
      [| discriminate].
    eapply IH; [| exact H]. eapply handle_wellFormed; eassumption.
Qed.

(** X7.  Whatever the user does to the form from its initial state, the
    state keeps a number that is not NaN in each of the eight numeric
    properties [generateSVG] reads and one of the three units in
    [pageUnit]; [gridType] and [dotSize] are undefined or hold a grid type
    and a number that is not NaN. *)
Theorem reachable_states_are_well_formed (events : list Event)
    (settings : SettingsObject) :
  run initialSettings events = Some settings ->
  wellFormed settings = true /\
  exists s, destructured settings = Some s.
Proof.
  intros H.
  assert (Hwf : wellFormed settings = true).
  { eapply run_wellFormed; [| exact H]. reflexivity. }
  split; [exact Hwf | now apply wellFormed_destructured].
Qed.

(** Emptying the X spacing, choosing inches, then dots, then typing a dot
    size that does not parse. *)
Lemma reachable_states_are_well_formed_witness :
  exists settings,
    run initialSettings
      [NumberInput Key.gridSpacingX nan; UnitSelect inch;
       GridTypeSelect dots; NumberInput Key.dotSize nan]
    = Some settings /\
    wellFormed settings = true /\
    exists s, destructured settings = Some s.
Proof.
  eexists. split; [reflexivity |].
  apply (reachable_states_are_well_formed
           [NumberInput Key.gridSpacingX nan; UnitSelect inch;
            GridTypeSelect dots; NumberInput Key.dotSize nan]).
  reflexivity.
Defined.

Lemma run_locked (events : list Event) :
  forall settings settings',
    settings Key.gridType = None ->
    (forall g, ~ In (GridTypeSelect g) events) ->
    run settings events = Some settings' ->
    settings' Key.gridType = None /\
    settings' Key.lineWidth = settings Key.lineWidth /\
    settings' Key.dotSize = settings Key.dotSize.
Proof.
  induction events as [| e events IH]; intros settings settings' Hnone Hno H.
  - simpl in H. inversion H; subst. now repeat split.
  - simpl in H. destruct (handle settings e) as [next |] eqn:He;
      [| discriminate].
    assert (Hnext : next Key.gridType = None /\
                    next Key.lineWidth = settings Key.lineWidth /\
                    next Key.dotSize = settings Key.dotSize).
    { destruct e as [key parsed | u | g]; simpl in He.
      - destruct (hasNumberInput settings key) eqn:Hshown; [| discriminate].
        inversion He; subst next.
        destruct key; simpl in Hshown; rewrite ?Hnone in Hshown;
          try discriminate Hshown; now repeat split.
      - inversion He; subst next. now repeat split.
      - exfalso. apply (Hno g). now left. }
    destruct Hnext as (Hg & Hl & Hd).
    destruct (IH next settings' Hg) as (Hg' & Hl' & Hd').
    + intros g Hin. apply (Hno g). now right.
    + exact H.
    + repeat split; congruence.
Qed.

(** X8.  Until a grid type is chosen in its [<select>], the form has
    neither the line-width nor the dot-size input: [lineWidth] stays at
    its initial 0.2 and [dotSize] stays undefined whatever else is done,
    while the summary under the preview reads "Dots". *)
Theorem widths_locked_until_grid_type_chosen (events : list Event)
    (settings : SettingsObject) :
  run initialSettings events = Some settings ->
  (forall g, ~ In (GridTypeSelect g) events) ->
  hasNumberInput settings Key.lineWidth = false /\
  hasNumberInput settings Key.dotSize = false /\
  settings Key.lineWidth = Some (VNumber 0.2) /\
  settings Key.dotSize = None /\
  summaryKind settings = "Dots"%string.
Proof.
  intros H Hno.
  destruct (run_locked events initialSettings settings eq_refl Hno H)
    as (Hg & Hl & Hd).
  unfold summaryKind. simpl. rewrite Hg, Hl, Hd. now repeat split.
Qed.

(** Changing the page width and the unit only. *)
Lemma widths_locked_until_grid_type_chosen_witness :
  run initialSettings [NumberInput Key.lineWidth 0.5] = None /\
  exists settings,
    run initialSettings [NumberInput Key.pageWidth 100; UnitSelect cm]
    = Some settings /\
    hasNumberInput settings Key.lineWidth = false /\
    hasNumberInput settings Key.dotSize = false /\
    settings Key.lineWidth = Some (VNumber 0.2) /\
    settings Key.dotSize = None /\
    summaryKind settings = "Dots"%string.
Proof.
  split; [reflexivity |].
  eexists. split; [reflexivity |].
  apply (widths_locked_until_grid_type_chosen
           [NumberInput Key.pageWidth 100; UnitSelect cm]).
  - reflexivity.
  - intros g [Hin | [Hin | []]]; discriminate.
Defined.

Lemma destructured_inv (settings : SettingsObject) (s : GridSettings) :
  destructured settings = Some s ->
  asNumber (settings Key.pageWidth) = Some (pageWidth s) /\
  asNumber (settings Key.pageHeight) = Some (pageHeight s) /\
  asNumber (settings Key.gridSpacingX) = Some (gridSpacingX s) /\
  asNumber (settings Key.gridSpacingY) = Some (gridSpacingY s) /\
  asNumber (settings Key.lineWidth) = Some (lineWidth s) /\
  asNumber (settings Key.rectangleWidth) = Some (rectangleWidth s) /\
  asNumber (settings Key.rectangleHeight) = Some (rectangleHeight s) /\
  asNumber (settings Key.rectangleBorderWidth)
  = Some (rectangleBorderWidth s) /\
  pageUnit s = unitOf (settings Key.pageUnit).
Proof.
  unfold destructured.
  destruct (asNumber (settings Key.pageWidth)); [| discriminate].
  destruct (asNumber (settings Key.pageHeight)); [| discriminate].
  destruct (asNumber (settings Key.gridSpacingX)); [| discriminate].
  destruct (asNumber (settings Key.gridSpacingY)); [| discriminate].
  destruct (asNumber (settings Key.lineWidth)); [| discriminate].
  destruct (asNumber (settings Key.rectangleWidth)); [| discriminate].
  destruct (asNumber (settings Key.rectangleHeight)); [| discriminate].
  destruct (asNumber (settings Key.rectangleBorderWidth)); [| discriminate].
  intros H. inversion H. now repeat split.
Qed.

Lemma scaled_by_unit (v : number) (u : PageUnit) :
  match u with
  | cm => v * 10
  | inch => v * 25.4
  | mm => v
  end = v * unitFactor u.
Proof. destruct u; try reflexivity. symmetry. apply mul_one_r. Qed.

(** X9.  Choosing a unit changes [pageUnit] and nothing else: the page
    width and height keep their numbers, so the page [generateSVG] then
    sees measures these numbers times the factor of the new unit; the
    rectangle, the spacings and the two stroke widths are as before. *)
Theorem unit_select_reinterprets (settings settings' : SettingsObject)
    (s : GridSettings) (u : PageUnit) :
  destructured settings = Some s ->
  handle settings (UnitSelect u) = Some settings' ->
  exists s',
    destructured settings' = Some s' /\
    pageUnit s' = u /\
    pageWidth s' = pageWidth s /\
    pageHeight s' = pageHeight s /\
    pageWidthMm s' = pageWidth s * unitFactor u /\
    pageHeightMm s' = pageHeight s * unitFactor u /\
    rectW s' = rectW s /\ rectH s' = rectH s /\
    spacingX s' = spacingX s /\ spacingY s' = spacingY s /\
    lineWidth s' = lineWidth s /\
    rectangleBorderWidth s' = rectangleBorderWidth s /\
    forall k, k <> Key.pageUnit -> settings' k = settings k.
Proof.
  intros Hs H. simpl in H. inversion H; subst settings'. clear H.
  destruct (destructured_inv _ _ Hs)
    as (H1 & H2 & H3 & H4 & H5 & H6 & H7 & H8 & _).
  assert (Hframe : forall k, k <> Key.pageUnit ->
            updateSetting Key.pageUnit (VString (unitValue u)) settings k
            = settings k).
  { intros k Hk. unfold updateSetting.
    destruct (Key.eq_dec k Key.pageUnit); congruence. }
  revert Hframe.
  generalize (updateSetting Key.pageUnit (VString (unitValue u)) settings)
    at 1 3 as after.
  intros after Hframe.
  unfold destructured, updateSetting. simpl.
  rewrite H1, H2, H3, H4, H5, H6, H7, H8.
  eexists. split; [reflexivity |].
  unfold pageWidthMm, pageHeightMm, rectW, rectH, spacingX, spacingY.
  cbn [pageUnit pageWidth pageHeight rectangleWidth rectangleHeight
       gridSpacingX gridSpacingY lineWidth rectangleBorderWidth].
  rewrite unitOf_unitValue, !scaled_by_unit. now repeat split.
Qed.

(** The A4 page of the initial state, switched to centimetres, is 2100 mm
    wide. *)
Lemma unit_select_reinterprets_witness :
  exists settings' s s',
    destructured initialSettings = Some s /\
    handle initialSettings (UnitSelect cm) = Some settings' /\
    destructured settings' = Some s' /\
    pageWidthMm s = 210 /\ pageWidthMm s' = 2100.
Proof.
  destruct (destructured initialSettings) as [s |] eqn:Hs;
    [| vm_compute in Hs; discriminate].
  destruct (handle initialSettings (UnitSelect cm)) as [settings' |] eqn:H;
    [| discriminate].
  destruct (unit_select_reinterprets _ _ _ _ Hs H)
    as (s' & Hs' & _ & _ & _ & Hmm & _).
  exists settings', s, s'. repeat (split; [reflexivity || assumption |]).
  vm_compute in Hs. inversion Hs; subst s. split; [reflexivity |].
  rewrite Hmm. reflexivity.
Defined.

(** X10.  A spacing input that is emptied, or given text that does not
    parse, or given 0, stores 0; and if the rectangle has an extent along
    that axis, [generateSVG] does not return on the new state, whose
    spacing is that 0, so neither does the render that computes the
    preview. *)
Theorem emptied_spacing_hangs_preview (settings : SettingsObject)
    (s : GridSettings) (parsed : number) :
  destructured settings = Some s ->
  truthy parsed = false ->
  ((rectX s <=? gridEndX s) = true ->
   exists settings' s',
     handle settings (NumberInput Key.gridSpacingX parsed) = Some settings' /\
     destructured settings' = Some s' /\
     (forall fuel, generateSVG fuel s' = None) /\
     settings' Key.gridSpacingX = Some (VNumber 0) /\
     gridSpacingX s' = 0) /\
  ((rectY s <=? gridEndY s) = true ->
   exists settings' s',
     handle settings (NumberInput Key.gridSpacingY parsed) = Some settings' /\
     destructured settings' = Some s' /\
     (forall fuel, generateSVG fuel s' = None) /\
     settings' Key.gridSpacingY = Some (VNumber 0) /\
     gridSpacingY s' = 0).
Proof.
  intros Hs Hfalsy.
  destruct (destructured_inv _ _ Hs)
    as (H1 & H2 & H3 & H4 & H5 & H6 & H7 & H8 & Hu).
  split; intros Hin; eexists; eexists;
    (split; [reflexivity |]);
    unfold destructured, updateSetting; simpl;
    rewrite ?H1, ?H2, ?H3, ?H4, ?H5, ?H6, ?H7, ?H8, (orZero_falsy _ Hfalsy);
    (split; [reflexivity |]);
    (split; [| split; reflexivity]); intros fuel;
    apply generateSVG_zero_spacing.
  - left. split; [reflexivity |].
    unfold gridEndX, rectX, rectW, rectangleX, pageWidthMm in *.
    cbn [pageUnit pageWidth rectangleWidth]. now rewrite <- Hu.
  - right. split; [reflexivity |].
    unfold gridEndY, rectY, rectH, rectangleY, pageHeightMm in *.
    cbn [pageUnit pageHeight rectangleHeight]. now rewrite <- Hu.
Qed.

(** Emptying the X spacing field of the initial form. *)
Lemma emptied_spacing_hangs_preview_witness :
  truthy nan = false /\
  exists settings' s',
    handle initialSettings (NumberInput Key.gridSpacingX nan)
    = Some settings' /\
    destructured settings' = Some s' /\
    (forall fuel, generateSVG fuel s' = None) /\
    settings' Key.gridSpacingX = Some (VNumber 0) /\
    gridSpacingX s' = 0.
Proof.
  split; [reflexivity |].
  destruct (destructured initialSettings) as [s |] eqn:Hs;
    [| vm_compute in Hs; discriminate].
  apply (proj1 (emptied_spacing_hangs_preview initialSettings s nan
                  Hs eq_refl)).
  vm_compute in Hs. inversion Hs. reflexivity.
Defined.

(** X11.  Choosing a grid type, or typing a dot size, changes nothing of
    what [generateSVG] returns: the drawing stays the one of the state
    before. *)
Theorem grid_type_choice_leaves_drawing (settings settings' : SettingsObject)
    (s : GridSettings) (e : Event) :
  destructured settings = Some s ->
  handle settings e = Some settings' ->
  target e = Key.gridType \/ target e = Key.dotSize ->
  exists s',
    destructured settings' = Some s' /\
    forall fuel, generateSVG fuel s' = generateSVG fuel s.
Proof.
  intros Hs H Htarget.
  destruct (destructured_inv _ _ Hs)
    as (H1 & H2 & H3 & H4 & H5 & H6 & H7 & H8 & Hu).
  assert (Hnew : settings' = updateSetting (target e) (stored e) settings).
  { destruct e as [key parsed | u | g]; simpl in H;
      [destruct (hasNumberInput settings key); [| discriminate] | |];
      now inversion H. }
  subst settings'.
  destruct s as [pw ph pu gt sx sy lw ds rw rh bw]. simpl in *.
  destruct Htarget as [-> | ->];
    unfold destructured, updateSetting; simpl;
    rewrite H1, H2, H3, H4, H5, H6, H7, H8, <- Hu;
    (eexists; split; [reflexivity |]); intros fuel; reflexivity.
Qed.

(** Choosing "Dots" in the initial form. *)
Lemma grid_type_choice_leaves_drawing_witness :
  exists settings' s s',
    destructured initialSettings = Some s /\
    handle initialSettings (GridTypeSelect dots) = Some settings' /\
    destructured settings' = Some s' /\
    gridType s' = dots /\ gridType s = lines /\
    forall fuel, generateSVG fuel s' = generateSVG fuel s.
Proof.
  destruct (destructured initialSettings) as [s |] eqn:Hs;
    [| vm_compute in Hs; discriminate].
  destruct (handle initialSettings (GridTypeSelect dots))
    as [settings' |] eqn:H; [| discriminate].
  destruct (grid_type_choice_leaves_drawing _ _ _ _ Hs H (or_introl eq_refl))
    as (s' & Hs' & Hsame).
  exists settings', s, s'. do 3 (split; [reflexivity || assumption |]).
  inversion H; subst settings'.
  vm_compute in Hs, Hs'. inversion Hs; subst s. inversion Hs'; subst s'.
  split; [reflexivity | split; [reflexivity | exact Hsame]].
Defined.

(** ** The download *)

Section Download.

Import Browser.

Lemma keep_older_children (k : nat) (children : list nat) :
  forallb (fun child => Nat.ltb child k) children = true ->
  filter (fun child => negb (Nat.eqb child (S k))) children = children.
Proof.
  induction children as [| c children IH]; [reflexivity |].
  simpl. intros H. apply andb_prop in H. destruct H as [Hc H].
  apply Nat.ltb_lt in Hc.
  destruct (Nat.eqb_spec c (S k)) as [-> | _]; [lia |].
  simpl. now rewrite IH.
Qed.

Lemma keep_older_urls (k : nat) (urls : list (nat * Blob)) :
  forallb (fun entry => Nat.ltb (fst entry) k) urls = true ->
  filter (fun entry => negb (Nat.eqb (fst entry) k)) urls = urls.
Proof.
  induction urls as [| [u b] urls IH]; [reflexivity |].
  simpl. intros H. apply andb_prop in H. destruct H as [Hu H].
  apply Nat.ltb_lt in Hu.
  destruct (Nat.eqb_spec u k) as [-> | _]; [lia |].
  simpl. now rewrite IH.
Qed.

Lemma remove_appended (k : nat) (children : list nat) :
  forallb (fun child => Nat.ltb child k) children = true ->
  filter (fun child => negb (Nat.eqb child (S k))) (children ++ [S k])
  = children.
Proof.
  intros H. rewrite filter_app, (keep_older_children _ _ H). simpl.
  rewrite Nat.eqb_refl. simpl. apply app_nil_r.
Qed.

(** What [downloadSVG] does to a tidy page once the markup is there. *)
Lemma downloadSVG_effect (toString : number -> string) (fuel : nat)
    (s : GridSettings) (w : World) (svgContent : string) :
  tidy w = true ->
  generateSVGString toString fuel s = Some svgContent ->
  downloadSVG toString fuel s w
  = Some {| bodyChildren := bodyChildren w;
            objectURLs := objectURLs w;
            unused := S (S (unused w));
            requested :=
              requested w ++
              [("grid-pattern.svg"%string,
                {| content := svgContent;
                   mimeType := "image/svg+xml" |})] |}.
Proof.
  unfold tidy, downloadSVG. intros Htidy ->.
  apply andb_prop in Htidy. destruct Htidy as [Hbody Hurls].
  unfold revokeObjectURL, removeChild, click, appendChild, createElement,
    createObjectURL, resolve.
  cbn [fst snd node href download bodyChildren objectURLs unused requested
       find option_map].
  rewrite Nat.eqb_refl.
  cbn [fst snd node href download bodyChildren objectURLs unused requested
       find option_map filter negb].
  rewrite Nat.eqb_refl.
  cbn [negb].
  now rewrite (remove_appended _ _ Hbody), (keep_older_urls _ _ Hurls).
Qed.

End Download.

(** X12.  On a page whose identifiers all come from the counter,
    [downloadSVG] asks for exactly one download, of a file named
    [grid-pattern.svg] of type [image/svg+xml] whose content is the string
    the preview shows, and it leaves the children of [document.body] and
    the live object URLs as they were. *)
Theorem download_delivers_the_preview (toString : number -> string)
    (fuel fuel' : nat) (s : GridSettings) (w w' : Browser.World)
    (previewSVG : string) :
  Browser.tidy w = true ->
  generateSVGString toString fuel' s = Some previewSVG ->
  downloadSVG toString fuel s w = Some w' ->
  Browser.bodyChildren w' = Browser.bodyChildren w /\
  Browser.objectURLs w' = Browser.objectURLs w /\
  Browser.requested w'
  = Browser.requested w ++
    [("grid-pattern.svg"%string,
      {| Browser.content := previewSVG;
         Browser.mimeType := "image/svg+xml" |})] /\
  Browser.tidy w' = true.
Proof.
  intros Htidy Hpreview Hdl.
  destruct (generateSVGString toString fuel s) as [svgContent |] eqn:Hgen;
    [| unfold downloadSVG in Hdl; rewrite Hgen in Hdl; discriminate].
  assert (svgContent = previewSVG) as ->.
  { unfold generateSVGString in Hgen, Hpreview.
    destruct (generateSVG fuel s) as [t1 |] eqn:E1; [| discriminate].
    destruct (generateSVG fuel' s) as [t2 |] eqn:E2; [| discriminate].
    returned_markup E1 g1 Hg1. returned_markup E2 g2 Hg2.
    rewrite (gridLinesOf_deterministic _ _ _ _ _ Hg1 Hg2) in Hgen.
    simpl in Hgen, Hpreview. congruence. }
  rewrite (downloadSVG_effect _ _ _ _ _ Htidy Hgen) in Hdl.
  inversion Hdl; subst w'. simpl. repeat split.
  unfold Browser.tidy in *. simpl.
  apply andb_prop in Htidy. destruct Htidy as [Hbody Hurls].
  apply andb_true_intro. split.
  - rewrite forallb_forall in *. intros c Hc. specialize (Hbody c Hc).
    apply Nat.ltb_lt in Hbody. apply Nat.ltb_lt. lia.
  - rewrite forallb_forall in *. intros c Hc. specialize (Hurls c Hc).
    apply Nat.ltb_lt in Hurls. apply Nat.ltb_lt. lia.
Qed.

(** The default page downloaded from a page with two children and one
    object URL. *)
Lemma download_delivers_the_preview_witness :
  Browser.tidy Browser.example = true /\
  exists previewSVG w',
    generateSVGString placeholder 30 defaultSettings = Some previewSVG /\
    downloadSVG placeholder 20 defaultSettings Browser.example = Some w' /\
    Browser.bodyChildren w' = [0; 2]%nat /\
    Browser.requested w'
    = [("grid-pattern.svg"%string,
        {| Browser.content := previewSVG;
           Browser.mimeType := "image/svg+xml" |})].
Proof.
  split; [reflexivity |].
  destruct (generateSVGString placeholder 30 defaultSettings)
    as [previewSVG |] eqn:Hp; [| vm_compute in Hp; discriminate].
  destruct (downloadSVG placeholder 20 defaultSettings Browser.example)
    as [w' |] eqn:Hd; [| vm_compute in Hd; discriminate].
  destruct (download_delivers_the_preview placeholder 20 30 defaultSettings
              Browser.example w' previewSVG eq_refl Hp Hd)
    as (Hbody & _ & Hreq & _).
  exists previewSVG, w'. repeat (split; [reflexivity |]).
  split; [exact Hbody | exact Hreq].
Defined.
